(** * Trivy DB build monitor: lock probe, log sink and build coordinator

    A shallow embedding of [local_run/webapp/app.py] and the properties
    of its process-lifecycle and log-streaming core.

    The Python code reads and deletes two files, probes and signals a
    process, keeps a bounded deque of log lines and starts a background
    thread.  These effects are modelled by explicit state passing: a
    [world] record holds the two files, the answers of the operating
    system, the deque and a journal of what the program did, and every
    Python function is a computation in a small state-and-exception
    monad over that record. *)

From Stdlib Require Import ZArith List String Ascii Bool Lia DecimalString DecimalPos.
Import ListNotations.
Local Open Scope string_scope.
Local Open Scope Z_scope.

(** ** Python values *)

Module Py.

(** Error numbers of the system calls the program makes. *)
Inductive errno := EPERM | ENOENT | ESRCH | EIO | EACCES | EINVAL | ENOSPC.

(** The exceptions the program can meet, each with the text of [str(e)].
    [OSError n] stands for [OSError] and its subclasses, which Python
    selects by error number: [ESRCH] is [ProcessLookupError], [EPERM]
    and [EACCES] are [PermissionError], [ENOENT] is [FileNotFoundError].
    [OtherError] is any further subclass of [Exception]. *)
Inductive exn :=
| OSError (n : errno) (msg : string)
| ValueError (msg : string)
| OverflowError (msg : string)
| KeyError (msg : string)
| OtherError (msg : string).

Definition str_exn (e : exn) : string :=
  match e with
  | OSError _ m | ValueError m | OverflowError m | KeyError m | OtherError m => m
  end.

(** [except OSError] *)
Definition is_OSError (e : exn) : bool :=
  match e with OSError _ _ => true | _ => false end.

(** [except ProcessLookupError] *)
Definition is_ProcessLookupError (e : exn) : bool :=
  match e with OSError ESRCH _ => true | _ => false end.

(** [except Exception] *)
Definition is_Exception (e : exn) : bool := true.

Definition strerror (n : errno) : string :=
  match n with
  | EPERM => "[Errno 1] Operation not permitted"
  | ENOENT => "[Errno 2] No such file or directory"
  | ESRCH => "[Errno 3] No such process"
  | EIO => "[Errno 5] Input/output error"
  | EACCES => "[Errno 13] Permission denied"
  | EINVAL => "[Errno 22] Invalid argument"
  | ENOSPC => "[Errno 28] No space left on device"
  end.

Definition os_error (n : errno) : exn := OSError n (strerror n).

(** JSON-like values and dictionaries, in insertion order. *)
Inductive value :=
| VNone
| VBool (b : bool)
| VInt (z : Z)
| VStr (s : string)
| VList (l : list string).

Definition dict := list (string * value).

Fixpoint dict_get (d : dict) (k : string) : option value :=
  match d with
  | [] => None
  | (k', v) :: d' => if String.eqb k k' then Some v else dict_get d' k
  end.

(** [d.get(k)] *)
Definition get (d : dict) (k : string) : value :=
  match dict_get d k with Some v => v | None => VNone end.

Definition list_string_eqb (a b : list string) : bool :=
  if list_eq_dec string_dec a b then true else false.

(** [v == v'] *)
Definition value_eqb (a b : value) : bool :=
  match a, b with
  | VNone, VNone => true
  | VBool x, VBool y => Bool.eqb x y
  | VInt x, VInt y => Z.eqb x y
  | VStr x, VStr y => String.eqb x y
  | VList x, VList y => list_string_eqb x y
  | _, _ => false
  end.

(** [str(z)] for an integer. *)
Definition str_Z (z : Z) : string := NilZero.string_of_int (Z.to_int z).

(** *** [str.strip] and [int] on text

    Text is taken to be ASCII.  There the white space of [str.strip] is
    tab, line feed, vertical tab, form feed, carriage return, the four
    separators 28..31 and the space; [int] itself skips only the white
    space of C, which lacks the four separators. *)
Definition isspace (c : ascii) : bool :=
  let n := nat_of_ascii c in
  ((9 <=? n) && (n <=? 13) || (28 <=? n) && (n <=? 32))%nat.

Definition c_isspace (c : ascii) : bool :=
  let n := nat_of_ascii c in
  ((9 <=? n) && (n <=? 13) || (n =? 32))%nat.

Fixpoint lstrip_by (space : ascii -> bool) (s : string) : string :=
  match s with
  | String c r => if space c then lstrip_by space r else s
  | EmptyString => EmptyString
  end.

(** Drops trailing white space: a character is kept when something
    that is kept follows it, or when it is not white space. *)
Fixpoint rstrip_by (space : ascii -> bool) (s : string) : string :=
  match s with
  | EmptyString => EmptyString
  | String c r =>
      match rstrip_by space r with
      | EmptyString => if space c then EmptyString else String c EmptyString
      | r' => String c r'
      end
  end.

(** [s.strip()] *)
Definition strip (s : string) : string := rstrip_by isspace (lstrip_by isspace s).

Definition digit_of (c : ascii) : option Z :=
  let n := nat_of_ascii c in
  if ((48 <=? n) && (n <=? 57))%nat then Some (Z.of_nat n - 48) else None.

(** Decimal digits with single underscores between digits;
    [seen] tells whether the previous character was a digit. *)
Fixpoint digits (acc : Z) (seen : bool) (s : string) : option Z :=
  match s with
  | EmptyString => if seen then Some acc else None
  | String c r =>
      match digit_of c with
      | Some d => digits (10 * acc + d) true r
      | None =>
          if (Ascii.eqb c "_" && seen)%bool then digits acc false r else None
      end
  end.

Definition signed_digits (s : string) : option Z :=
  match s with
  | String "+" r => digits 0 false r
  | String "-" r => option_map Z.opp (digits 0 false r)
  | _ => digits 0 false s
  end.

Inductive outcome (A : Type) :=
| Return (a : A)
| Raise (e : exn).
Arguments Return {A} a.
Arguments Raise {A} e.

(** [int(s)] in base 10: surrounding white space is ignored, a sign is
    allowed, anything else raises [ValueError].  This is [int] on ASCII
    text of up to 4300 digits, the most Python converts by default; the
    message shows the text between quotes, as Python does for text
    without quotes, backslashes and control characters. *)
Definition int (s : string) : outcome Z :=
  match signed_digits (rstrip_by c_isspace (lstrip_by c_isspace s)) with
  | Some z => Return z
  | None =>
      Raise (ValueError ("invalid literal for int() with base 10: '" ++ s ++ "'"))
  end.

(** [xs[-n:]]: a slice from index [-n].  A negative start counts from
    the end and is clipped at the front; [-0] is [0], the whole list;
    a positive start (negative [n]) skips that many items. *)
Definition slice_from_neg {A} (xs : list A) (n : Z) : list A :=
  let len := Z.of_nat (List.length xs) in
  let start := - n in
  let start := if start <? 0 then Z.max 0 (start + len) else Z.min start len in
  skipn (Z.to_nat start) xs.

(** A file object in text mode: [readlines] cuts after every line end,
    and universal newlines turn a carriage return, alone or before a
    line feed, into a line feed. *)
Fixpoint readlines_from (cur : string) (s : string) : list string :=
  match s with
  | EmptyString => match cur with EmptyString => [] | _ => [cur] end
  | String c r =>
      if Ascii.eqb c "010" then (cur ++ String "010" EmptyString)%string :: readlines_from EmptyString r
      else if Ascii.eqb c "013" then
        match r with
        | String c' r' =>
            if Ascii.eqb c' "010"
            then (cur ++ String "010" EmptyString)%string :: readlines_from EmptyString r'
            else (cur ++ String "010" EmptyString)%string :: readlines_from EmptyString r
        | EmptyString => [(cur ++ String "010" EmptyString)%string]
        end
      else readlines_from (cur ++ String c EmptyString)%string r
  end.

Definition readlines (s : string) : list string := readlines_from EmptyString s.

End Py.

(** ** The world the program runs in *)

Inductive path := LOCK_FILE | LOG_FILE.

Inductive fs_op := OpenRead (p : path) | Unlink (p : path).

(** The two files hold their text, [None] when the file does not exist.
    [fs_fault] and [kill_errno] are the answers of the operating system:
    the exception, if any, with which opening for reading or unlinking a
    file that exists fails, and the error number, if any, with which
    [kill(pid, sig)] fails.  [log_buffer] is the deque of the module;
    [delivered], [build_threads] and [children] journal the signals sent
    (signal 0 sends none), the background threads started and the child
    processes spawned. *)
Record world := mkWorld {
  lock_file : option string;
  log_file : option string;
  fs_fault : fs_op -> option Py.exn;
  kill_errno : Z -> Z -> option Py.errno;
  now : string;
  log_buffer : list string;
  delivered : list (Z * Z);
  build_threads : nat;
  children : nat
}.

Definition file_at (p : path) (w : world) : option string :=
  match p with LOCK_FILE => lock_file w | LOG_FILE => log_file w end.

Definition set_file (p : path) (f : option string) (w : world) : world :=
  match p with
  | LOCK_FILE =>
      mkWorld f (log_file w) (fs_fault w) (kill_errno w) (now w)
              (log_buffer w) (delivered w) (build_threads w) (children w)
  | LOG_FILE =>
      mkWorld (lock_file w) f (fs_fault w) (kill_errno w) (now w)
              (log_buffer w) (delivered w) (build_threads w) (children w)
  end.

Definition set_log_buffer (b : list string) (w : world) : world :=
  mkWorld (lock_file w) (log_file w) (fs_fault w) (kill_errno w) (now w)
          b (delivered w) (build_threads w) (children w).

Definition add_delivered (pid sig : Z) (w : world) : world :=
  mkWorld (lock_file w) (log_file w) (fs_fault w) (kill_errno w) (now w)
          (log_buffer w) (delivered w ++ [(pid, sig)])%list (build_threads w) (children w).

Definition add_thread (w : world) : world :=
  mkWorld (lock_file w) (log_file w) (fs_fault w) (kill_errno w) (now w)
          (log_buffer w) (delivered w) (S (build_threads w)) (children w).

Definition add_child (w : world) : world :=
  mkWorld (lock_file w) (log_file w) (fs_fault w) (kill_errno w) (now w)
          (log_buffer w) (delivered w) (build_threads w) (S (children w)).

(** ** Computations: state and exceptions *)

Definition M (A : Type) : Type := world -> Py.outcome A * world.

Definition ret {A} (a : A) : M A := fun w => (Py.Return a, w).

Definition raise {A} (e : Py.exn) : M A := fun w => (Py.Raise e, w).

Definition bind {A B} (m : M A) (k : A -> M B) : M B :=
  fun w =>
    match m w with
    | (Py.Return a, w') => k a w'
    | (Py.Raise e, w') => (Py.Raise e, w')
    end.

(** [try: m except C as e: h e], where [catches] decides [isinstance(e, C)]. *)
Definition try_except {A} (m : M A) (catches : Py.exn -> bool) (h : Py.exn -> M A) : M A :=
  fun w =>
    match m w with
    | (Py.Return a, w') => (Py.Return a, w')
    | (Py.Raise e, w') => if catches e then h e w' else (Py.Raise e, w')
    end.

Definition lift {A} (o : Py.outcome A) : M A := fun w => (o, w).

Declare Scope py_scope.
Delimit Scope py_scope with py.
Notation "x <- m ;; k" := (bind m (fun x => k))
  (at level 61, m at next level, right associativity) : py_scope.
Notation "m ;; k" := (bind m (fun _ => k))
  (at level 61, right associativity) : py_scope.
Local Open Scope py_scope.

(** *** What the program asks of its environment *)

(** [p.exists()], in the states in which it answers: a file is there or
    it is not.  A state in which the check itself raises (a directory
    that may not be searched) has no [world]; there the functions that
    call [exists()] outside a [try] raise, and nothing below speaks of
    such a call. *)
Definition path_exists (p : path) : M bool :=
  fun w => (Py.Return (match file_at p w with Some _ => true | None => false end), w).

(** [with open(p, 'r') as f: f.read()] *)
Definition read_text (p : path) : M string :=
  fun w =>
    match file_at p w with
    | None => (Py.Raise (Py.os_error Py.ENOENT), w)
    | Some s =>
        match fs_fault w (OpenRead p) with
        | Some e => (Py.Raise e, w)
        | None => (Py.Return s, w)
        end
    end.

(** [p.unlink()] *)
Definition unlink (p : path) : M unit :=
  fun w =>
    match file_at p w with
    | None => (Py.Raise (Py.os_error Py.ENOENT), w)
    | Some _ =>
        match fs_fault w (Unlink p) with
        | Some e => (Py.Raise e, w)
        | None => (Py.Return tt, set_file p None w)
        end
    end.

(** [with open(p, 'a') as f: f.write(line)]; [fault] is the failure, if
    any, that this one write meets (disk full, file not writable). *)
Definition append_text (p : path) (line : string) (fault : option Py.exn) : M unit :=
  fun w =>
    match fault with
    | Some e => (Py.Raise e, w)
    | None =>
        let old := match file_at p w with Some s => s | None => EmptyString end in
        (Py.Return tt, set_file p (Some (old ++ line)%string) w)
    end.

(** The process identifier of [os.kill] is a C [int], converted by way
    of a C [long]. *)
Definition INT_MIN : Z := - 2 ^ 31.
Definition INT_MAX : Z := 2 ^ 31 - 1.
Definition LONG_MIN : Z := - 2 ^ 63.
Definition LONG_MAX : Z := 2 ^ 63 - 1.

(** The text of the [OverflowError] for a [pid] that is no C [int]. *)
Definition below_int (pid : Z) : string :=
  if pid <? LONG_MIN then "Python int too large to convert to C long"
  else "signed integer is less than minimum".

Definition above_int (pid : Z) : string :=
  if LONG_MAX <? pid then "Python int too large to convert to C long"
  else "signed integer is greater than maximum".

(** [os.kill(pid, sig)]: a [pid] that is no C [int] raises
    [OverflowError] before any system call; otherwise [kill(2)] either
    fails with an error number, raised as [OSError], or succeeds, and
    then a signal other than 0 has been sent.  With signal 0 the call
    only looks the process up: it fails with [ESRCH] when no such
    process exists, and with [EPERM] when the process exists and the
    caller may not signal it. *)
Definition os_kill (pid sig : Z) : M unit :=
  fun w =>
    if pid <? INT_MIN then
      (Py.Raise (Py.OverflowError (below_int pid)), w)
    else if INT_MAX <? pid then
      (Py.Raise (Py.OverflowError (above_int pid)), w)
    else
      match kill_errno w pid sig with
      | Some n => (Py.Raise (Py.os_error n), w)
      | None => (Py.Return tt, if sig =? 0 then w else add_delivered pid sig w)
      end.

(** [datetime.now().isoformat()]; the clock of a world stands still, so
    the calls of one run read the same time. *)
Definition datetime_now : M string := fun w => (Py.Return (now w), w).

(** [threading.Thread(target=run_build_async, daemon=True).start()] *)
Definition start_build_thread : M unit := fun w => (Py.Return tt, add_thread w).

(** ** The program *)

Definition MAX_LOG_LINES : Z := 1000.

Definition nl : string := String "010" EmptyString.

(** [deque(maxlen=n).append(x)]: the item goes to the right end, and
    a deque that has become longer than [maxlen] loses its leftmost
    item. *)
Definition deque_append (maxlen : Z) (x : string) (d : list string) : list string :=
  let d' := (d ++ [x])%list in
  if maxlen <? Z.of_nat (List.length d') then tl d' else d'.

(** [log_buffer.clear()] *)
Definition log_buffer_clear : M unit :=
  fun w => (Py.Return tt, set_log_buffer [] w).

(** [log_buffer.append(line)] *)
Definition log_buffer_append (line : string) : M unit :=
  fun w => (Py.Return tt, set_log_buffer (deque_append MAX_LOG_LINES line (log_buffer w)) w).

(** [list(log_buffer)] *)
Definition log_buffer_list : M (list string) :=
  fun w => (Py.Return (log_buffer w), w).

(** [d[k]] *)
Definition subscript (d : Py.dict) (k : string) : M Py.value :=
  match Py.dict_get d k with
  | Some v => ret v
  | None => raise (Py.KeyError k)
  end.

(** [get_build_status()] *)
Definition get_build_status : M Py.dict :=
  present <- path_exists LOCK_FILE ;;
  if (present : bool) then
    try_except
      (text <- read_text LOCK_FILE ;;
       pid <- lift (Py.int (Py.strip text)) ;;
       try_except
         (os_kill pid 0 ;;
          ret [("status", Py.VStr "running"); ("pid", Py.VInt pid)])
         Py.is_OSError
         (fun _ => ret [("status", Py.VStr "stale_lock"); ("pid", Py.VInt pid)]))
      Py.is_Exception
      (fun e => ret [("status", Py.VStr "error"); ("message", Py.VStr (Py.str_exn e))])
  else
    ret [("status", Py.VStr "idle")].

(** *** The build thread *)

(** What the child process does, as the thread sees it: each
    [readline()] either fails or gives a line, and for each line the
    append to the durable log file either fails or succeeds.  After the
    last event [readline()] gives the empty string. *)
Inductive read_event :=
| Line (text : string) (write_fault : option Py.exn)
| ReadFails (e : Py.exn).

Record child := mkChild {
  stdout : list read_event;
  returncode : Z
}.

Inductive popen :=
| SpawnFails (e : Py.exn)
| Spawned (c : child).

(** [subprocess.Popen([str(BUILD_SCRIPT)], ...)] *)
Definition Popen (p : popen) : M child :=
  fun w =>
    match p with
    | SpawnFails e => (Py.Raise e, w)
    | Spawned c => (Py.Return c, add_child w)
    end.

(** Truth value of a string. *)
Definition truthy (s : string) : bool := negb (String.eqb s EmptyString).

(** [for line in iter(process.stdout.readline, ''): ...] *)
Fixpoint stream_output (events : list read_event) : M unit :=
  match events with
  | [] => ret tt
  | ReadFails e :: _ => raise e
  | Line line write_fault :: rest =>
      if String.eqb line EmptyString then ret tt
      else
        (if truthy line then
           log_buffer_append line ;;
           append_text LOG_FILE line write_fault
         else ret tt) ;;
        stream_output rest
  end.

Definition start_marker (t : string) : string :=
  "[" ++ t ++ "] Starting build process..." ++ nl.

Definition success_marker (t : string) : string :=
  nl ++ "[" ++ t ++ "] Build completed successfully" ++ nl.

Definition failure_marker (t : string) (rc : Z) : string :=
  nl ++ "[" ++ t ++ "] Build failed with exit code " ++ Py.str_Z rc ++ nl.

Definition error_marker (t : string) (e : Py.exn) : string :=
  nl ++ "[" ++ t ++ "] Build error: " ++ Py.str_exn e ++ nl.

(** [run_build_async()], given what [Popen] and the child will do. *)
Definition run_build_async (p : popen) : M unit :=
  log_buffer_clear ;;
  t <- datetime_now ;;
  log_buffer_append (start_marker t) ;;
  try_except
    (process <- Popen p ;;
     stream_output (stdout process) ;;
     (* process.wait() *)
     if returncode process =? 0 then
       t <- datetime_now ;;
       log_buffer_append (success_marker t)
     else
       t <- datetime_now ;;
       log_buffer_append (failure_marker t (returncode process)))
    Py.is_Exception
    (fun e =>
       t <- datetime_now ;;
       log_buffer_append (error_marker t e)).

(** *** The request handlers

    A handler that raises is answered by Flask with status 500. *)

Record response := mkResponse {
  body : Py.dict;
  status_code : Z
}.

Definition jsonify (d : Py.dict) : response := mkResponse d 200.

Definition with_status (r : response) (c : Z) : response := mkResponse (body r) c.

(** [request.args.get(key, default, type=int)]: the default when the
    parameter is absent or [int] raises [ValueError] on it. *)
Definition args_get_int (arg : option string) (default : Z) : Z :=
  match arg with
  | None => default
  | Some s => match Py.int s with Py.Return z => z | Py.Raise _ => default end
  end.

Definition is_empty {A} (l : list A) : bool :=
  match l with [] => true | _ => false end.

(** [list(log_buffer)[-lines:] if log_buffer else []] *)
Definition buffer_tail (buffer : list string) (lines : Z) : list string :=
  if is_empty buffer then [] else Py.slice_from_neg buffer lines.

(** [api_logs()], for the request parameter [lines]. *)
Definition api_logs (lines_arg : option string) : M response :=
  let lines := args_get_int lines_arg 100 in
  let lines := Z.min lines MAX_LOG_LINES in
  buffer <- log_buffer_list ;;
  let recent_logs := buffer_tail buffer lines in
  log_exists <- (if is_empty recent_logs then path_exists LOG_FILE else ret false) ;;
  recent_logs <-
    (if (log_exists : bool) then
       try_except
         (text <- read_text LOG_FILE ;;
          let all_lines := Py.readlines text in
          ret (Py.slice_from_neg all_lines lines))
         Py.is_Exception
         (fun _ => ret recent_logs)
     else ret recent_logs) ;;
  buffer <- log_buffer_list ;;
  t <- datetime_now ;;
  ret (jsonify [("logs", Py.VList recent_logs);
                ("total_lines", Py.VInt (Z.of_nat (List.length buffer)));
                ("timestamp", Py.VStr t)]).

(** [api_build()] *)
Definition api_build : M response :=
  build_status <- get_build_status ;;
  status <- subscript build_status "status" ;;
  if Py.value_eqb status (Py.VStr "running") then
    ret (with_status
           (jsonify [("success", Py.VBool false);
                     ("message", Py.VStr "A build is already running");
                     ("pid", Py.get build_status "pid")]) 409)
  else
  status <- subscript build_status "status" ;;
  if Py.value_eqb status (Py.VStr "stale_lock") then
    ret (with_status
           (jsonify [("success", Py.VBool false);
                     ("message", Py.VStr "Stale lock file detected. Please clean it manually.");
                     ("pid", Py.get build_status "pid")]) 409)
  else
  log_exists <- path_exists LOG_FILE ;;
  (if (log_exists : bool) then unlink LOG_FILE else ret tt) ;;
  start_build_thread ;;
  ret (jsonify [("success", Py.VBool true);
                ("message", Py.VStr "Build started successfully")]).

(** The integer that [os.kill] takes from a value. *)
Definition as_int (v : Py.value) : M Z :=
  match v with
  | Py.VInt z => ret z
  | _ => raise (Py.OtherError "an integer is required")
  end.

Definition stop_marker (t : string) (pid : Z) : string :=
  nl ++ "[" ++ t ++ "] Build stop requested (PID: " ++ Py.str_Z pid ++ ")" ++ nl.

(** [try: m except C1: h1 except C2 as e: h2 e] *)
Definition try_except2 {A} (m : M A)
    (c1 : Py.exn -> bool) (h1 : Py.exn -> M A)
    (c2 : Py.exn -> bool) (h2 : Py.exn -> M A) : M A :=
  fun w =>
    match m w with
    | (Py.Return a, w') => (Py.Return a, w')
    | (Py.Raise e, w') =>
        if c1 e then h1 e w' else if c2 e then h2 e w' else (Py.Raise e, w')
    end.

(** [api_stop_build()] *)
Definition api_stop_build : M response :=
  build_status <- get_build_status ;;
  status <- subscript build_status "status" ;;
  if negb (Py.value_eqb status (Py.VStr "running")) then
    ret (with_status
           (jsonify [("success", Py.VBool false);
                     ("message", Py.VStr "No build is currently running")]) 409)
  else
  try_except2
    (pid <- as_int (Py.get build_status "pid") ;;
     os_kill pid 15 ;;
     t <- datetime_now ;;
     log_buffer_append (stop_marker t pid) ;;
     ret (jsonify [("success", Py.VBool true);
                   ("message", Py.VStr ("Stop signal sent to build process (PID: "
                                        ++ Py.str_Z pid ++ ")"))]))
    Py.is_ProcessLookupError
    (fun _ =>
       ret (with_status
              (jsonify [("success", Py.VBool false);
                        ("message", Py.VStr "Build process not found")]) 404))
    Py.is_Exception
    (fun e =>
       ret (with_status
              (jsonify [("success", Py.VBool false);
                        ("message", Py.VStr ("Failed to stop build: " ++ Py.str_exn e))]) 500)).

(** [api_clear_lock()] *)
Definition api_clear_lock : M response :=
  build_status <- get_build_status ;;
  status <- subscript build_status "status" ;;
  if Py.value_eqb status (Py.VStr "running") then
    ret (with_status
           (jsonify [("success", Py.VBool false);
                     ("message", Py.VStr "Cannot clear lock while build is running")]) 409)
  else
  lock_exists <- path_exists LOCK_FILE ;;
  if (lock_exists : bool) then
    try_except
      (unlink LOCK_FILE ;;
       ret (jsonify [("success", Py.VBool true);
                     ("message", Py.VStr "Lock file cleared successfully")]))
      Py.is_Exception
      (fun e =>
         ret (with_status
                (jsonify [("success", Py.VBool false);
                          ("message", Py.VStr ("Failed to clear lock: " ++ Py.str_exn e))]) 500))
  else
    ret (jsonify [("success", Py.VBool true);
                  ("message", Py.VStr "No lock file to clear")]).

(** *** The four answers of the lock probe *)

Definition idle_status : Py.dict := [("status", Py.VStr "idle")].

Definition running_status (pid : Z) : Py.dict :=
  [("status", Py.VStr "running"); ("pid", Py.VInt pid)].

Definition stale_status (pid : Z) : Py.dict :=
  [("status", Py.VStr "stale_lock"); ("pid", Py.VInt pid)].

Definition error_status (message : string) : Py.dict :=
  [("status", Py.VStr "error"); ("message", Py.VStr message)].

(** The answer of the probe in a world, where the existence check of
    the marker answers and the probe returns
    ([get_build_status_probe] below). *)
Definition probe (w : world) : Py.dict :=
  match fst (get_build_status w) with
  | Py.Return d => d
  | Py.Raise _ => []
  end.

(** *** Sample worlds *)

Definition no_fault : fs_op -> option Py.exn := fun _ => None.

(** Only the process [p] exists and may be signalled. *)
Definition only_alive (p : Z) : Z -> Z -> option Py.errno :=
  fun pid _ => if pid =? p then None else Some Py.ESRCH.

(** The process [p] answers the probe and is gone when the signal is sent. *)
Definition gone_before_signal (p : Z) : Z -> Z -> option Py.errno :=
  fun pid sig => if ((pid =? p) && (sig =? 0))%bool then None else Some Py.ESRCH.

Definition deny (op : fs_op) : fs_op -> option Py.exn :=
  fun o =>
    match op, o with
    | Unlink LOCK_FILE, Unlink LOCK_FILE
    | Unlink LOG_FILE, Unlink LOG_FILE
    | OpenRead LOCK_FILE, OpenRead LOCK_FILE
    | OpenRead LOG_FILE, OpenRead LOG_FILE => Some (Py.os_error Py.EPERM)
    | _, _ => None
    end.

Definition w_idle : world :=
  mkWorld None None no_fault (only_alive 4242) "2024-01-01T00:00:00" [] [] 0 0.

Definition with_lock (text : string) (w : world) : world :=
  set_file LOCK_FILE (Some text) w.

Definition with_fs_fault (f : fs_op -> option Py.exn) (w : world) : world :=
  mkWorld (lock_file w) (log_file w) f (kill_errno w) (now w)
          (log_buffer w) (delivered w) (build_threads w) (children w).

Definition with_kill (k : Z -> Z -> option Py.errno) (w : world) : world :=
  mkWorld (lock_file w) (log_file w) (fs_fault w) k (now w)
          (log_buffer w) (delivered w) (build_threads w) (children w).

Definition w_running : world := with_lock ("4242" ++ nl) w_idle.
Definition w_stale : world := with_lock ("99999999" ++ nl) w_idle.
Definition w_corrupt : world := with_lock "not a pid" w_idle.
Definition w_unreadable : world := with_fs_fault (deny (OpenRead LOCK_FILE)) w_running.
Definition w_huge_pid : world := with_lock "2147483648" w_idle.

Definition w_vanishing : world := with_kill (gone_before_signal 4242) w_running.
Definition w_stale_undeletable : world := with_fs_fault (deny (Unlink LOCK_FILE)) w_stale.
Definition w_corrupt_undeletable : world := with_fs_fault (deny (Unlink LOCK_FILE)) w_corrupt.

(** *** The log sink, seen from outside *)

(** A run of [log_buffer.append] calls. *)
Fixpoint log_lines (ls : list string) : M unit :=
  match ls with
  | [] => ret tt
  | l :: rest => log_buffer_append l ;; log_lines rest
  end.

(** The deque after [clear()] and the appends [ls]. *)
Definition buffer_of (ls : list string) : list string :=
  fold_left (fun d x => deque_append MAX_LOG_LINES x d) ls [].

(** The last [n] items of a list, all of them when there are fewer. *)
Definition last_n {A} (n : nat) (l : list A) : list A :=
  skipn (List.length l - n) l.

(** The fields [logs] and [total_lines] of a response of [api_logs]. *)
Definition response_logs (o : Py.outcome response) : list string :=
  match o with
  | Py.Return r => match Py.get (body r) "logs" with Py.VList l => l | _ => [] end
  | Py.Raise _ => []
  end.

Definition response_total_lines (o : Py.outcome response) : Py.value :=
  match o with
  | Py.Return r => Py.get (body r) "total_lines"
  | Py.Raise _ => Py.VNone
  end.

(** The world after one line of the child went to the deque and to the
    durable log file. *)
Definition consume (line : string) (w : world) : world :=
  snd (append_text LOG_FILE line None (snd (log_buffer_append line w))).

Definition w_two_lines : world :=
  set_log_buffer [("line1" ++ nl)%string; ("line2" ++ nl)%string] w_idle.

(** A server that has just restarted: the deque is empty and the log
    file of an earlier build holds 1001 lines. *)
Definition w_restarted : world :=
  set_file LOG_FILE (Some (String.concat EmptyString (repeat ("x" ++ nl)%string 1001))) w_idle.

(** The world after [clear()] and the appends [ls]. *)
Definition after_appends (ls : list string) (w : world) : world :=
  snd (log_lines ls (snd (log_buffer_clear w))).

(** A build that printed 1001 lines. *)
Definition w_long_build : world :=
  after_appends (repeat ("x" ++ nl)%string 1001) w_idle.

(** A child whose first line cannot be written to the log file because
    the disk is full, and that prints a second line and exits with 0. *)
Definition disk_full_script : popen :=
  Spawned (mkChild [Line ("a" ++ nl) (Some (Py.os_error Py.ENOSPC));
                    Line ("b" ++ nl) None] 0).

(** The value of a run of decimal digits read after [acc]. *)
Fixpoint uint_value (d : Decimal.uint) (acc : Z) : Z :=
  match d with
  | Decimal.Nil => acc
  | Decimal.D0 d => uint_value d (10 * acc + 0)
  | Decimal.D1 d => uint_value d (10 * acc + 1)
  | Decimal.D2 d => uint_value d (10 * acc + 2)
  | Decimal.D3 d => uint_value d (10 * acc + 3)
  | Decimal.D4 d => uint_value d (10 * acc + 4)
  | Decimal.D5 d => uint_value d (10 * acc + 5)
  | Decimal.D6 d => uint_value d (10 * acc + 6)
  | Decimal.D7 d => uint_value d (10 * acc + 7)
  | Decimal.D8 d => uint_value d (10 * acc + 8)
  | Decimal.D9 d => uint_value d (10 * acc + 9)
  end.

(** Every character of a string passes a test. *)
Fixpoint string_forall (p : ascii -> bool) (s : string) : bool :=
  match s with
  | EmptyString => true
  | String c r => (p c && string_forall p r)%bool
  end.

(** The characters [str] of an integer is made of. *)
Definition sign_or_digit (c : ascii) : bool :=
  match Py.digit_of c with
  | Some _ => true
  | None => Ascii.eqb c "-"
  end.

(** A character of ASCII. *)
Definition is_ascii (c : ascii) : bool := (nat_of_ascii c <? 128)%nat.

(** The most digits [int] converts by default
    ([sys.int_max_str_digits]). *)
Definition MAX_STR_DIGITS : nat := 4300.

(** Text on which [Py.strip] and [Py.int] are those of Python: ASCII
    characters only, and no more of them than [int] converts. *)
Definition plain_text (s : string) : bool :=
  (string_forall is_ascii s && (String.length s <=? MAX_STR_DIGITS)%nat)%bool.

(** What the probe [kill(pid, 0)] tells of a process.  The process
    exists when the call succeeds and when it fails with [EPERM]; the
    server may signal it unless the call fails with [EPERM]; and no such
    process exists when the call fails with [ESRCH]. *)
Definition alive (w : world) (pid : Z) : bool :=
  match kill_errno w pid 0 with
  | None | Some Py.EPERM => true
  | Some _ => false
  end.

Definition may_signal (w : world) (pid : Z) : bool :=
  match kill_errno w pid 0 with
  | Some Py.EPERM => false
  | _ => true
  end.

Definition no_such_process (w : world) (pid : Z) : bool :=
  match kill_errno w pid 0 with
  | Some Py.ESRCH => true
  | _ => false
  end.

(** A marker with the pid of a process that exists and that the server
    may not signal. *)
Definition w_foreign : world :=
  with_kill (fun pid _ => if pid =? 1 then Some Py.EPERM else Some Py.ESRCH)
            (with_lock ("1" ++ nl) w_idle).

(** A line as [readline()] gives it before the end of the output: text
    without line ends, closed by a line feed. *)
Fixpoint is_line (s : string) : bool :=
  match s with
  | EmptyString => false
  | String c r =>
      if Ascii.eqb c "010" then String.eqb r EmptyString
      else if Ascii.eqb c "013" then false
      else is_line r
  end.

(** The text of the log file, empty when there is none. *)
Definition log_text (w : world) : string :=
  match log_file w with Some s => s | None => EmptyString end.

(** The lines of the log file, none when there is no file. *)
Definition log_file_lines (w : world) : list string :=
  match log_file w with Some s => Py.readlines s | None => [] end.

(** A child that prints the given lines, all of which reach the log
    file, and exits with [rc]. *)
Definition printing (lines : list string) (rc : Z) : popen :=
  Spawned (mkChild (map (fun l => Line l None) lines) rc).

(** The first failure the streaming loop meets, if any: a failing
    [readline()] or a failing write, before the end of the output. *)
Fixpoint first_fault (events : list read_event) : option Py.exn :=
  match events with
  | [] => None
  | ReadFails e :: _ => Some e
  | Line line write_fault :: rest =>
      if String.eqb line EmptyString then None
      else match write_fault with
           | Some e => Some e
           | None => first_fault rest
           end
  end.

(** The failure, if any, that ends a run of the build thread. *)
Definition build_fault (p : popen) : option Py.exn :=
  match p with
  | SpawnFails e => Some e
  | Spawned c => first_fault (stdout c)
  end.

Definition exit_code (p : popen) : Z :=
  match p with
  | SpawnFails _ => 0
  | Spawned c => returncode c
  end.

Definition within_bound (w : world) : Prop :=
  (List.length (log_buffer w) <= Z.to_nat MAX_LOG_LINES)%nat.

(** *** The status page: [format_size], [get_db_info], [api_status] *)

#[local] Set Warnings "-register-all".

(** Values with nesting, for the metadata and the status response. *)
Inductive json :=
| JNone
| JBool (b : bool)
| JInt (z : Z)
| JStr (s : string)
| JList (l : list json)
| JDict (d : list (string * json)).

Definition jdict := list (string * json).

Fixpoint jdict_get (d : jdict) (k : string) : option json :=
  match d with
  | [] => None
  | (k', v) :: d' => if String.eqb k k' then Some v else jdict_get d' k
  end.

(** [d[k] = v]: an existing key keeps its place, a new one goes last. *)
Fixpoint jdict_set (k : string) (v : json) (d : jdict) : jdict :=
  match d with
  | [] => [(k, v)]
  | (k', v') :: d' =>
      if String.eqb k k' then (k', v) :: d' else (k', v') :: jdict_set k v d'
  end.

(** [d[k]] *)
Definition jsubscript (d : jdict) (k : string) : M json :=
  match jdict_get d k with
  | Some v => ret v
  | None => raise (Py.KeyError k)
  end.

Definition json_of_value (v : Py.value) : json :=
  match v with
  | Py.VNone => JNone
  | Py.VBool b => JBool b
  | Py.VInt z => JInt z
  | Py.VStr s => JStr s
  | Py.VList l => JList (map JStr l)
  end.

Definition json_of_dict (d : Py.dict) : json :=
  JDict (map (fun kv => (fst kv, json_of_value (snd kv))) d).

(** A binary floating-point number with the value [mant * 2 ^ expo]; the
    ones the program meets have at most 53 bits in [mant]. *)
Record float := mkFloat { mant : Z; expo : Z }.

(** [float(n)] for an integer: exact up to 53 bits, beyond that rounded
    to 53 bits, ties to even; [OverflowError] when the result is no
    double. *)
Definition float_of_int (n : Z) : Py.outcome float :=
  let a := Z.abs n in
  let bits := if a =? 0 then 0 else Z.log2 a + 1 in
  if bits <=? 53 then Py.Return (mkFloat n 0)
  else
    let e := bits - 53 in
    let q := Z.shiftr a e in
    let r := a - Z.shiftl q e in
    let half := Z.shiftl 1 (e - 1) in
    let q' := if ((half <? r) || ((r =? half) && Z.odd q))%bool then q + 1 else q in
    if 2 ^ 1024 <=? Z.shiftl q' e
    then Py.Raise (Py.OverflowError "int too large to convert to float")
    else Py.Return (mkFloat (Z.sgn n * q') e).

(** The number [size_bytes] holds: an [int] at first, a [float] after
    the first division. *)
Inductive number := Int (z : Z) | Float (x : float).

(** [x < k] for a float and an integer, compared exactly. *)
Definition float_ltb_int (x : float) (k : Z) : bool :=
  if 0 <=? expo x then Z.shiftl (mant x) (expo x) <? k
  else mant x <? Z.shiftl k (- expo x).

(** [size_bytes < 1024.0] *)
Definition lt_1024 (v : number) : bool :=
  match v with
  | Int z => z <? 1024
  | Float x => float_ltb_int x 1024
  end.

(** [size_bytes /= 1024.0]: an [int] becomes a [float] first; dividing
    by a power of two only lowers the exponent. *)
Definition div_1024 (v : number) : Py.outcome number :=
  match v with
  | Int z =>
      match float_of_int z with
      | Py.Return x => Py.Return (Float (mkFloat (mant x) (expo x - 10)))
      | Py.Raise e => Py.Raise e
      end
  | Float x => Py.Return (Float (mkFloat (mant x) (expo x - 10)))
  end.

(** [t / d] rounded to the nearest integer, ties to even. *)
Definition round_half_even (t d : Z) : Z :=
  let q := t / d in
  let r := t mod d in
  if ((d <? 2 * r) || ((2 * r =? d) && Z.odd q))%bool then q + 1 else q.

(** The absolute value of a float in hundredths, correctly rounded. *)
Definition hundredths (x : float) : Z :=
  let a := Z.abs (mant x) in
  if 0 <=? expo x then 100 * Z.shiftl a (expo x)
  else round_half_even (100 * a) (Z.shiftl 1 (- expo x)).

Definition two_digits (z : Z) : string :=
  if z <? 10 then "0" ++ Py.str_Z z else Py.str_Z z.

(** Hundredths written with two decimals. *)
Definition decimal_2 (h : Z) : string :=
  Py.str_Z (h / 100) ++ "." ++ two_digits (h mod 100).

(** [f"{x:.2f}"] for a float. *)
Definition format_2f_float (x : float) : string :=
  (if mant x <? 0 then "-" else EmptyString) ++ decimal_2 (hundredths x).

(** [f"{size_bytes:.2f}"]; an [int] is converted to [float] first. *)
Definition format_2f (v : number) : Py.outcome string :=
  match v with
  | Int z =>
      match float_of_int z with
      | Py.Return x => Py.Return (format_2f_float x)
      | Py.Raise e => Py.Raise e
      end
  | Float x => Py.Return (format_2f_float x)
  end.

(** The [for unit in ...] loop of [format_size] and the line after it. *)
Fixpoint format_loop (units : list string) (v : number) : Py.outcome string :=
  match units with
  | [] =>
      match format_2f v with
      | Py.Return s => Py.Return (s ++ " TB")
      | Py.Raise e => Py.Raise e
      end
  | unit :: rest =>
      if lt_1024 v then
        match format_2f v with
        | Py.Return s => Py.Return (s ++ " " ++ unit)
        | Py.Raise e => Py.Raise e
        end
      else
        match div_1024 v with
        | Py.Return v' => format_loop rest v'
        | Py.Raise e => Py.Raise e
        end
  end.

(** [format_size(size_bytes)] for [None] or an integer; any other value
    cannot be compared with [1024.0]. *)
Definition format_size (size_bytes : json) : Py.outcome string :=
  match size_bytes with
  | JNone => Py.Return "N/A"
  | JInt z => format_loop ["B"; "KB"; "MB"; "GB"] (Int z)
  | _ => Py.Raise (Py.OtherError "'<' not supported between these instances")
  end.

(** What [stat()] tells of a file.  [st_mtime_iso] is what
    [datetime.fromtimestamp(st_mtime).isoformat()] gives for the time
    of the file's last change: the local time as text, or the exception
    [fromtimestamp] raises for a time outside the range of the
    platform. *)
Record stat_result := mkStat { st_size : Z; st_mtime_iso : Py.outcome string }.

(** What the file system answers about a file of the output directory:
    [exists()] and [stat()], each of which can raise. *)
Record file := mkFile {
  answers_exists : Py.outcome bool;
  answers_stat : Py.outcome stat_result
}.

(** The output directory as the handlers see it: [trivy.db],
    [trivy.db.tar.gz], whether [metadata.json] exists, and what opening
    it and [json.load] give. *)
Record output_dir := mkOutput {
  db_file : file;
  db_tar : file;
  metadata_exists : Py.outcome bool;
  metadata_load : Py.outcome json
}.

(** [get_db_info()] *)
Definition get_db_info (o : output_dir) : M jdict :=
  db_exists <- lift (answers_exists (db_file o)) ;;
  tar_exists <- lift (answers_exists (db_tar o)) ;;
  let info := [("db_exists", JBool db_exists);
               ("db_size", JNone);
               ("db_mtime", JNone);
               ("tar_exists", JBool tar_exists);
               ("tar_size", JNone);
               ("metadata", JNone)] in
  info <- (present <- lift (answers_exists (db_file o)) ;;
           if (present : bool) then
             stat <- lift (answers_stat (db_file o)) ;;
             let info := jdict_set "db_size" (JInt (st_size stat)) info in
             mtime <- lift (st_mtime_iso stat) ;;
             ret (jdict_set "db_mtime" (JStr mtime) info)
           else ret info) ;;
  info <- (present <- lift (answers_exists (db_tar o)) ;;
           if (present : bool) then
             stat <- lift (answers_stat (db_tar o)) ;;
             ret (jdict_set "tar_size" (JInt (st_size stat)) info)
           else ret info) ;;
  present <- lift (metadata_exists o) ;;
  if (present : bool) then
    try_except
      (metadata <- lift (metadata_load o) ;;
       ret (jdict_set "metadata" metadata info))
      Py.is_Exception
      (fun _ => ret info)
  else ret info.

Record json_response := mkJsonResponse {
  json_body : json;
  json_status_code : Z
}.

(** [api_status()] *)
Definition api_status (o : output_dir) : M json_response :=
  build_status <- get_build_status ;;
  db_info <- get_db_info o ;;
  db_size <- jsubscript db_info "db_size" ;;
  db_size_formatted <- lift (format_size db_size) ;;
  let db_info := jdict_set "db_size_formatted" (JStr db_size_formatted) db_info in
  tar_size <- jsubscript db_info "tar_size" ;;
  tar_size_formatted <- lift (format_size tar_size) ;;
  let db_info := jdict_set "tar_size_formatted" (JStr tar_size_formatted) db_info in
  t <- datetime_now ;;
  ret (mkJsonResponse
         (JDict [("build", json_of_dict build_status);
                 ("database", JDict db_info);
                 ("timestamp", JStr t)]) 200).

(** The unit [format_size] picks for a size that is not negative. *)
Definition unit_index (n : Z) : nat :=
  if n <? 1024 then 0
  else if n <? 1024 ^ 2 then 1
  else if n <? 1024 ^ 3 then 2
  else if n <? 1024 ^ 4 then 3
  else 4.

Definition unit_name (k : nat) : string :=
  nth k ["B"; "KB"; "MB"; "GB"] "TB".

(** A field of the [database] part of a status response. *)
Definition database_field (o : Py.outcome json_response) (k : string) : option json :=
  match o with
  | Py.Return r =>
      match json_body r with
      | JDict top =>
          match jdict_get top "database" with
          | Some (JDict db) => jdict_get db k
          | _ => None
          end
      | _ => None
      end
  | Py.Raise _ => None
  end.

Definition build_field (o : Py.outcome json_response) : option json :=
  match o with
  | Py.Return r =>
      match json_body r with
      | JDict top => jdict_get top "build"
      | _ => None
      end
  | Py.Raise _ => None
  end.

(** An output directory with both artifacts and a [metadata.json] that
    is no JSON. *)
Definition sample_output : output_dir :=
  mkOutput (mkFile (Py.Return true)
                   (Py.Return (mkStat 1536 (Py.Return "2024-01-01T00:00:00"))))
           (mkFile (Py.Return true)
                   (Py.Return (mkStat 640 (Py.Return "2024-01-01T00:00:00"))))
           (Py.Return true)
           (Py.Raise (Py.ValueError "Expecting value: line 1 column 1 (char 0)")).

(** A string holds a space. *)
Fixpoint has_space (s : string) : bool :=
  match s with
  | EmptyString => false
  | String c r => (Ascii.eqb c " " || has_space r)%bool
  end.

(** The size [get_db_info] reports for a file: [None] when it is missing. *)
Definition size_json (f : file) : json :=
  match answers_exists f, answers_stat f with
  | Py.Return true, Py.Return stat => JInt (st_size stat)
  | _, _ => JNone
  end.

(** The time of the last change [get_db_info] reports for [trivy.db]. *)
Definition mtime_json (f : file) : json :=
  match answers_exists f, answers_stat f with
  | Py.Return true, Py.Return stat =>
      match st_mtime_iso stat with
      | Py.Return t => JStr t
      | Py.Raise _ => JNone
      end
  | _, _ => JNone
  end.

(** The metadata [get_db_info] reports: [None] when the file is missing
    or could not be read or parsed. *)
Definition metadata_json (o : output_dir) : json :=
  match metadata_exists o, metadata_load o with
  | Py.Return true, Py.Return j => j
  | _, _ => JNone
  end.

(** A file the status page can describe: it is missing, or it is there
    and [stat()] answers with a size of the file system (for
    [trivy.db], with a time [fromtimestamp] converts as well). *)
Definition describable (with_mtime : bool) (f : file) : Prop :=
  answers_exists f = Py.Return false \/
  (answers_exists f = Py.Return true /\
   exists stat,
     answers_stat f = Py.Return stat /\
     0 <= st_size stat < 2 ^ 63 /\
     (with_mtime = true -> exists t, st_mtime_iso stat = Py.Return t)).

(** The response of [api_status], built from the probe, the dictionary
    of [get_db_info] and the two formatted sizes. *)
Definition status_response (w : world) (info : jdict) (s1 s2 : string) : json_response :=
  mkJsonResponse
    (JDict [("build", json_of_dict (probe w));
            ("database",
             JDict (jdict_set "tar_size_formatted" (JStr s2)
                      (jdict_set "db_size_formatted" (JStr s1) info)));
            ("timestamp", JStr (now w))]) 200.

(** ** Properties *)

(** Unfolds the monad and the primitives, then computes. *)
Ltac run :=
  unfold get_build_status, api_build, api_stop_build, api_clear_lock,
    subscript, as_int, start_build_thread, datetime_now,
    log_buffer_append, log_buffer_clear, log_buffer_list,
    try_except, try_except2, bind, ret, raise, lift,
    path_exists, read_text, unlink, os_kill, file_at;
  cbn -[INT_MIN INT_MAX below_int above_int Py.int Py.strip Z.ltb Py.str_Z
       String.append].

(** Rewrites with the equations at hand and computes on. *)
Ltac settle :=
  repeat (progress
    (repeat match goal with
            | H : ?l = _ |- context [?l] => rewrite H
            end;
     cbn -[INT_MIN INT_MAX below_int above_int Py.int Py.strip Z.ltb Py.str_Z
          String.append])).

Ltac split_on t :=
  let E := fresh "E" in destruct t eqn:E; settle.

(** The probe as one case distinction on the world. *)
Lemma get_build_status_eq (w : world) :
  get_build_status w =
  (Py.Return
     match lock_file w with
     | None => idle_status
     | Some text =>
         match fs_fault w (OpenRead LOCK_FILE) with
         | Some e => error_status (Py.str_exn e)
         | None =>
             match Py.int (Py.strip text) with
             | Py.Raise e => error_status (Py.str_exn e)
             | Py.Return pid =>
                 if pid <? INT_MIN
                 then error_status (below_int pid)
                 else if INT_MAX <? pid
                 then error_status (above_int pid)
                 else match kill_errno w pid 0 with
                      | None => running_status pid
                      | Some _ => stale_status pid
                      end
             end
         end
     end, w).
Proof.
  run.
  split_on (lock_file w); [|reflexivity].
  split_on (fs_fault w (OpenRead LOCK_FILE)); [reflexivity|].
  split_on (Py.int (Py.strip s)); [|reflexivity].
  split_on (a <? INT_MIN); [reflexivity|].
  split_on (INT_MAX <? a); [reflexivity|].
  split_on (kill_errno w a 0); reflexivity.
Qed.

(** In a world the probe answers, and it leaves the world as it is. *)
Lemma get_build_status_probe (w : world) :
  get_build_status w = (Py.Return (probe w), w).
Proof.
  unfold probe. rewrite get_build_status_eq. reflexivity.
Qed.

Lemma probe_eq (w : world) :
  probe w =
  match lock_file w with
  | None => idle_status
  | Some text =>
      match fs_fault w (OpenRead LOCK_FILE) with
      | Some e => error_status (Py.str_exn e)
      | None =>
          match Py.int (Py.strip text) with
          | Py.Raise e => error_status (Py.str_exn e)
          | Py.Return pid =>
              if pid <? INT_MIN
              then error_status (below_int pid)
              else if INT_MAX <? pid
              then error_status (above_int pid)
              else match kill_errno w pid 0 with
                   | None => running_status pid
                   | Some _ => stale_status pid
                   end
          end
      end
  end.
Proof.
  unfold probe. rewrite get_build_status_eq. reflexivity.
Qed.

(** Splits the probe into its cases. *)
Ltac probe_split w :=
  rewrite (probe_eq w) in *;
  destruct (lock_file w) as [?text|] eqn:?Hlock;
  [ destruct (fs_fault w (OpenRead LOCK_FILE)) as [?e|] eqn:?Hread;
    [ | match goal with
        | _ : lock_file w = Some ?t |- _ =>
            destruct (Py.int (Py.strip t)) as [?pid|?e] eqn:?Hint;
            [ match goal with
              | _ : Py.int _ = Py.Return ?p |- _ =>
                  destruct (p <? INT_MIN) eqn:?Hmin;
                  [ | destruct (INT_MAX <? p) eqn:?Hmax;
                      [ | destruct (kill_errno w p 0) as [?n|] eqn:?Hkill ] ]
              end | ]
        end ]
  | ].

(** The probe gives one of its four dictionaries. *)
Lemma probe_cases (w : world) :
  probe w = idle_status \/
  (exists pid, probe w = running_status pid) \/
  (exists pid, probe w = stale_status pid) \/
  (exists msg, probe w = error_status msg).
Proof. probe_split w; eauto 6. Qed.

Lemma probe_running_inv (w : world) (pid : Z) :
  probe w = running_status pid ->
  (exists text, lock_file w = Some text /\ Py.int (Py.strip text) = Py.Return pid) /\
  INT_MIN <= pid <= INT_MAX /\ kill_errno w pid 0 = None.
Proof.
  intros H. probe_split w; try discriminate H.
  injection H as <-. repeat split; try easy.
  - eauto.
  - apply Z.ltb_ge. assumption.
  - apply Z.ltb_ge. assumption.
Qed.

Lemma probe_stale_inv (w : world) (pid : Z) :
  probe w = stale_status pid -> lock_file w <> None.
Proof. intros H. probe_split w; try discriminate H; easy. Qed.

Lemma probe_error_inv (w : world) (msg : string) :
  probe w = error_status msg -> lock_file w <> None.
Proof. intros H. probe_split w; try discriminate H; easy. Qed.

Lemma probe_idle_inv (w : world) :
  probe w = idle_status -> lock_file w = None.
Proof. intros H. probe_split w; try discriminate H; easy. Qed.

Lemma probe_absent (w : world) :
  lock_file w = None -> probe w = idle_status.
Proof. intros H. rewrite probe_eq, H. reflexivity. Qed.

Example int_examples :
  Py.int ("  12" ++ nl) = Py.Return 12 /\
  Py.int "-5" = Py.Return (-5) /\
  Py.int "1_000" = Py.Return 1000 /\
  Py.int "007" = Py.Return 7 /\
  (exists e, Py.int "1__0" = Py.Raise e) /\
  (exists e, Py.int EmptyString = Py.Raise e) /\
  (exists e, Py.int "- 5" = Py.Raise e) /\
  (exists e, Py.int "0x10" = Py.Raise e) /\
  (exists e, Py.int (String "028" "7") = Py.Raise e) /\
  Py.int (Py.strip (String "028" "7")) = Py.Return 7.
Proof. repeat (split; [reflexivity || (eexists; reflexivity)|]). reflexivity. Qed.

Example slice_examples :
  Py.slice_from_neg [1; 2; 3] 0 = [1; 2; 3] /\
  Py.slice_from_neg [1; 2; 3] (-1) = [2; 3] /\
  Py.slice_from_neg [1; 2; 3] 5 = [1; 2; 3] /\
  Py.slice_from_neg [1; 2; 3] 2 = [2; 3] /\
  Py.slice_from_neg [1; 2; 3] (-7) = [].
Proof. repeat split. Qed.

Example readlines_example :
  Py.readlines ("a" ++ String "013" "b" ++ String "013" nl ++ "c" ++ nl ++ "d")
  = ["a" ++ nl; "b" ++ nl; "c" ++ nl; "d"]%string.
Proof. reflexivity. Qed.

Lemma probed_inv (w : world) (d : Py.dict) :
  fst (get_build_status w) = Py.Return d -> probe w = d.
Proof. rewrite get_build_status_probe. cbn. congruence. Qed.

Lemma set_file_same (p : path) (w : world) :
  set_file p (file_at p w) w = w.
Proof. destruct w, p; reflexivity. Qed.

(** *** The lock probe *)

(** C1 (amended).  In every world, that is whenever the existence
    check of the marker answers, [get_build_status] leaves the world
    untouched and answers: idle when the marker file is absent; error
    with a message when the marker cannot be read, when its stripped
    text (plain text) is no integer, or when the integer is no C [int]
    for [os.kill]; running with the pid when the pid is that of a
    process that is alive and that the server may signal; stale with
    the pid when no such process exists.  Nothing is said of a process
    that is alive and that the server may not signal. *)
Theorem get_build_status_classifies (w : world) :
  (lock_file w = None ->
   get_build_status w = (Py.Return idle_status, w)) /\
  (forall text e,
     lock_file w = Some text ->
     fs_fault w (OpenRead LOCK_FILE) = Some e ->
     exists message,
       get_build_status w = (Py.Return (error_status message), w)) /\
  (forall text e,
     lock_file w = Some text ->
     fs_fault w (OpenRead LOCK_FILE) = None ->
     plain_text text = true ->
     Py.int (Py.strip text) = Py.Raise e ->
     exists message,
       get_build_status w = (Py.Return (error_status message), w)) /\
  (forall text pid,
     lock_file w = Some text ->
     fs_fault w (OpenRead LOCK_FILE) = None ->
     plain_text text = true ->
     Py.int (Py.strip text) = Py.Return pid ->
     pid < INT_MIN \/ INT_MAX < pid ->
     exists message,
       get_build_status w = (Py.Return (error_status message), w)) /\
  (forall text pid,
     lock_file w = Some text ->
     fs_fault w (OpenRead LOCK_FILE) = None ->
     plain_text text = true ->
     Py.int (Py.strip text) = Py.Return pid ->
     INT_MIN <= pid <= INT_MAX ->
     alive w pid = true ->
     may_signal w pid = true ->
     get_build_status w = (Py.Return (running_status pid), w)) /\
  (forall text pid,
     lock_file w = Some text ->
     fs_fault w (OpenRead LOCK_FILE) = None ->
     plain_text text = true ->
     Py.int (Py.strip text) = Py.Return pid ->
     INT_MIN <= pid <= INT_MAX ->
     no_such_process w pid = true ->
     get_build_status w = (Py.Return (stale_status pid), w)).
Proof.
  rewrite get_build_status_eq.
  refine (conj _ (conj _ (conj _ (conj _ (conj _ _))))).
  - intros ->. reflexivity.
  - intros text e -> ->. eauto.
  - intros text e -> -> _ ->. eauto.
  - intros text pid -> -> _ -> Hrange.
    destruct (pid <? INT_MIN) eqn:Hmin; [eauto|].
    destruct (INT_MAX <? pid) eqn:Hmax; [eauto|].
    apply Z.ltb_ge in Hmin, Hmax. lia.
  - intros text pid -> -> _ -> [Hlo Hhi] Halive Hmay.
    apply Z.ltb_ge in Hlo, Hhi. rewrite Hlo, Hhi.
    unfold alive in Halive. unfold may_signal in Hmay.
    destruct (kill_errno w pid 0) as [[]|]; try discriminate; reflexivity.
  - intros text pid -> -> _ -> [Hlo Hhi] Hgone.
    apply Z.ltb_ge in Hlo, Hhi. rewrite Hlo, Hhi.
    unfold no_such_process in Hgone.
    destruct (kill_errno w pid 0) as [[]|]; try discriminate; reflexivity.
Qed.

Lemma get_build_status_classifies_witness :
  get_build_status w_idle = (Py.Return idle_status, w_idle) /\
  (exists message,
     get_build_status w_unreadable = (Py.Return (error_status message), w_unreadable)) /\
  (exists message,
     get_build_status w_corrupt = (Py.Return (error_status message), w_corrupt)) /\
  (exists message,
     get_build_status w_huge_pid = (Py.Return (error_status message), w_huge_pid)) /\
  get_build_status w_running = (Py.Return (running_status 4242), w_running) /\
  get_build_status w_stale = (Py.Return (stale_status 99999999), w_stale).
Proof.
  refine (conj _ (conj _ (conj _ (conj _ (conj _ _))))).
  - apply (proj1 (get_build_status_classifies w_idle)). reflexivity.
  - apply (proj1 (proj2 (get_build_status_classifies w_unreadable))
             ("4242" ++ nl) (Py.os_error Py.EPERM)); reflexivity.
  - apply (proj1 (proj2 (proj2 (get_build_status_classifies w_corrupt)))
             "not a pid"
             (Py.ValueError "invalid literal for int() with base 10: 'not a pid'"));
      reflexivity.
  - apply (proj1 (proj2 (proj2 (proj2 (get_build_status_classifies w_huge_pid))))
             "2147483648" 2147483648); try reflexivity.
    right. reflexivity.
  - apply (proj1 (proj2 (proj2 (proj2 (proj2 (get_build_status_classifies w_running)))))
             ("4242" ++ nl) 4242); try reflexivity.
    split; discriminate.
  - apply (proj2 (proj2 (proj2 (proj2 (proj2 (get_build_status_classifies w_stale)))))
             ("99999999" ++ nl) 99999999); try reflexivity.
    split; discriminate.
Defined.

(** C1, counterexample.  The marker holds the integer 2147483648, no
    such process exists, and the probe [os.kill(2147483648, 0)] fails:
    the answer is error, not stale with that pid. *)
Lemma get_build_status_huge_pid_not_stale :
  lock_file w_huge_pid = Some "2147483648" /\
  Py.int (Py.strip "2147483648") = Py.Return 2147483648 /\
  fst (os_kill 2147483648 0 w_huge_pid) =
    Py.Raise (Py.OverflowError "signed integer is greater than maximum") /\
  fst (get_build_status w_huge_pid) =
    Py.Return (error_status "signed integer is greater than maximum") /\
  fst (get_build_status w_huge_pid) <> Py.Return (stale_status 2147483648).
Proof. repeat split; try reflexivity. discriminate. Qed.

(** The case C1 (amended) leaves out.  The marker holds the pid of a
    process that is alive and that the server may not signal: the probe
    fails with [EPERM], which is an [OSError], and the branch commented
    "Process not running" answers stale. *)
Lemma get_build_status_alive_not_signalable :
  lock_file w_foreign = Some ("1" ++ nl) /\
  alive w_foreign 1 = true /\
  may_signal w_foreign 1 = false /\
  fst (os_kill 1 0 w_foreign) = Py.Raise (Py.os_error Py.EPERM) /\
  fst (get_build_status w_foreign) = Py.Return (stale_status 1).
Proof. repeat split. Qed.

(** *** Starting a build *)

(** C2.  When the probe answers running or stale, [api_build] returns
    status 409 with [success] false and the pid, and the world after the
    call is the world before it: the deque, the durable log file, the
    count of build threads and the count of child processes are
    unchanged. *)
Theorem api_build_refuses_when_locked (w : world) (pid : Z) :
  fst (get_build_status w) = Py.Return (running_status pid) \/
  fst (get_build_status w) = Py.Return (stale_status pid) ->
  (exists message,
     api_build w =
     (Py.Return (mkResponse [("success", Py.VBool false);
                             ("message", Py.VStr message);
                             ("pid", Py.VInt pid)] 409), w)) /\
  log_buffer (snd (api_build w)) = log_buffer w /\
  log_file (snd (api_build w)) = log_file w /\
  build_threads (snd (api_build w)) = build_threads w /\
  children (snd (api_build w)) = children w.
Proof.
  intros H.
  assert (Hp : probe w = running_status pid \/ probe w = stale_status pid)
    by (destruct H as [H|H]; apply probed_inv in H; auto).
  unfold api_build, bind. rewrite get_build_status_probe.
  destruct Hp as [-> | ->]; cbn;
    (split; [eexists; reflexivity | repeat split]).
Qed.

Lemma api_build_refuses_when_locked_witness :
  (exists message,
     api_build w_stale =
     (Py.Return (mkResponse [("success", Py.VBool false);
                             ("message", Py.VStr message);
                             ("pid", Py.VInt 99999999)] 409), w_stale)) /\
  (exists message,
     api_build w_running =
     (Py.Return (mkResponse [("success", Py.VBool false);
                             ("message", Py.VStr message);
                             ("pid", Py.VInt 4242)] 409), w_running)).
Proof.
  split.
  - apply (api_build_refuses_when_locked w_stale 99999999). right. reflexivity.
  - apply (api_build_refuses_when_locked w_running 4242). left. reflexivity.
Defined.

(** C3 (amended).  When the probe answers error, [api_build] does not
    refuse and does not pass the probe's message on: it goes on as for
    idle.  If there is no old log file, or the old one can be unlinked,
    the log file is gone afterwards, one build thread has been started
    and the response is 200 with [success] true; if unlinking the old
    log file raises, the handler raises that exception and starts
    nothing. *)
Theorem api_build_proceeds_on_error (w : world) (message : string) :
  fst (get_build_status w) = Py.Return (error_status message) ->
  (log_file w = None \/ fs_fault w (Unlink LOG_FILE) = None ->
   api_build w =
   (Py.Return (mkResponse [("success", Py.VBool true);
                           ("message", Py.VStr "Build started successfully")] 200),
    add_thread (set_file LOG_FILE None w))) /\
  (forall e,
     log_file w <> None -> fs_fault w (Unlink LOG_FILE) = Some e ->
     api_build w = (Py.Raise e, w)).
Proof.
  intros H. apply probed_inv in H.
  unfold api_build, bind. rewrite get_build_status_probe, H. run.
  split.
  - intros [Hnone | Hok].
    + settle. destruct w; cbn in *; subst; reflexivity.
    + destruct (log_file w) eqn:Hlog; settle.
      * reflexivity.
      * destruct w; cbn in *; subst; reflexivity.
  - intros e Hsome Hfault.
    destruct (log_file w) eqn:Hlog; [|congruence]. settle. reflexivity.
Qed.

Lemma api_build_proceeds_on_error_witness :
  api_build w_corrupt =
  (Py.Return (mkResponse [("success", Py.VBool true);
                          ("message", Py.VStr "Build started successfully")] 200),
   add_thread (set_file LOG_FILE None w_corrupt)).
Proof.
  apply (proj1 (api_build_proceeds_on_error w_corrupt
                  "invalid literal for int() with base 10: 'not a pid'" eq_refl)).
  left. reflexivity.
Defined.

(** C3, counterexample.  The marker holds text that is no integer, so
    the probe answers error with a message; [api_build] answers 200
    with [success] true, its response does not carry the probe's
    message, a build thread has been started, and that thread spawns
    the child. *)
Lemma api_build_starts_on_corrupt_marker :
  fst (get_build_status w_corrupt) =
    Py.Return (error_status "invalid literal for int() with base 10: 'not a pid'") /\
  fst (api_build w_corrupt) =
    Py.Return (mkResponse [("success", Py.VBool true);
                           ("message", Py.VStr "Build started successfully")] 200) /\
  build_threads (snd (api_build w_corrupt)) = S (build_threads w_corrupt) /\
  children (snd (run_build_async (Spawned (mkChild [] 0)) (snd (api_build w_corrupt))))
    = S (children w_corrupt).
Proof. repeat split. Qed.

(** *** Stopping a build *)

Lemma c_int_range (pid : Z) :
  INT_MIN <= pid <= INT_MAX -> (pid <? INT_MIN) = false /\ (INT_MAX <? pid) = false.
Proof. intros [Hlo Hhi]. split; apply Z.ltb_ge; assumption. Qed.

(** C6.  [api_stop_build]: when the probe's status is not running, the
    answer is 409 with the message that no build is running and the
    world is unchanged; when it is running and [kill(pid, 15)] succeeds,
    the signal SIGTERM (15) to the marker's pid is the one signal sent,
    the response is 200 with [success] true, and apart from the journal
    of signals only the deque changes, by the stop marker: nothing
    waits for the child; when it is running and [kill(pid, 15)] finds
    no such process, the answer is 404 with the message that the
    process was not found, and no signal is sent. *)
Theorem api_stop_build_spec (w : world) :
  (forall d,
     fst (get_build_status w) = Py.Return d ->
     Py.dict_get d "status" <> Some (Py.VStr "running") ->
     api_stop_build w =
     (Py.Return (mkResponse [("success", Py.VBool false);
                             ("message", Py.VStr "No build is currently running")] 409),
      w)) /\
  (forall pid,
     fst (get_build_status w) = Py.Return (running_status pid) ->
     kill_errno w pid 15 = None ->
     api_stop_build w =
     (Py.Return (mkResponse
                   [("success", Py.VBool true);
                    ("message", Py.VStr ("Stop signal sent to build process (PID: "
                                         ++ Py.str_Z pid ++ ")"))] 200),
      set_log_buffer
        (deque_append MAX_LOG_LINES (stop_marker (now w) pid) (log_buffer w))
        (add_delivered pid 15 w)) /\
     delivered (snd (api_stop_build w)) = (delivered w ++ [(pid, 15)])%list /\
     exists text, lock_file w = Some text /\ Py.int (Py.strip text) = Py.Return pid) /\
  (forall pid,
     fst (get_build_status w) = Py.Return (running_status pid) ->
     kill_errno w pid 15 = Some Py.ESRCH ->
     api_stop_build w =
     (Py.Return (mkResponse [("success", Py.VBool false);
                             ("message", Py.VStr "Build process not found")] 404),
      w)).
Proof.
  refine (conj _ (conj _ _)).
  - intros d H Hnot. apply probed_inv in H. subst d.
    unfold api_stop_build, bind. rewrite get_build_status_probe.
    destruct (probe_cases w) as [E | [[pid E] | [[pid E] | [msg E]]]];
      rewrite E in *; cbn in *; try reflexivity.
    congruence.
  - intros pid H Hkill. apply probed_inv in H.
    destruct (probe_running_inv w pid H) as (Hmarker & Hrange & _).
    destruct (c_int_range pid Hrange) as [Hlo Hhi].
    unfold api_stop_build, bind. rewrite get_build_status_probe, H.
    run. settle. repeat split. exact Hmarker.
  - intros pid H Hkill. apply probed_inv in H.
    destruct (probe_running_inv w pid H) as (_ & Hrange & _).
    destruct (c_int_range pid Hrange) as [Hlo Hhi].
    unfold api_stop_build, bind. rewrite get_build_status_probe, H.
    run. settle. reflexivity.
Qed.

Lemma api_stop_build_spec_witness :
  api_stop_build w_idle =
    (Py.Return (mkResponse [("success", Py.VBool false);
                            ("message", Py.VStr "No build is currently running")] 409),
     w_idle) /\
  delivered (snd (api_stop_build w_running)) = [(4242, 15)] /\
  api_stop_build w_vanishing =
    (Py.Return (mkResponse [("success", Py.VBool false);
                            ("message", Py.VStr "Build process not found")] 404),
     w_vanishing).
Proof.
  refine (conj _ (conj _ _)).
  - apply (proj1 (api_stop_build_spec w_idle) idle_status); [reflexivity|discriminate].
  - apply (proj1 (proj2 (api_stop_build_spec w_running)) 4242 eq_refl eq_refl).
  - apply (proj2 (proj2 (api_stop_build_spec w_vanishing)) 4242); reflexivity.
Defined.

(** *** Clearing the lock *)

Lemma get_build_status_after_unlink (w : world) :
  get_build_status (set_file LOCK_FILE None w) =
  (Py.Return idle_status, set_file LOCK_FILE None w).
Proof. rewrite get_build_status_eq. reflexivity. Qed.

(** What [api_clear_lock] does once the running guard has let it pass
    and the marker exists. *)
Lemma api_clear_lock_unlink (w : world) :
  Py.dict_get (probe w) "status" <> Some (Py.VStr "running") ->
  lock_file w <> None ->
  api_clear_lock w =
  match fs_fault w (Unlink LOCK_FILE) with
  | None =>
      (Py.Return (mkResponse [("success", Py.VBool true);
                              ("message", Py.VStr "Lock file cleared successfully")] 200),
       set_file LOCK_FILE None w)
  | Some e =>
      (Py.Return (mkResponse [("success", Py.VBool false);
                              ("message", Py.VStr ("Failed to clear lock: "
                                                   ++ Py.str_exn e))] 500),
       w)
  end.
Proof.
  intros Hnot Hlock.
  unfold api_clear_lock, bind. rewrite get_build_status_probe.
  destruct (lock_file w) as [text|] eqn:Hl; [|congruence].
  destruct (probe_cases w) as [E | [[pid E] | [[pid E] | [msg E]]]];
    rewrite E in *; cbn in Hnot; try congruence.
  - apply probe_idle_inv in E. congruence.
  - run. settle. destruct (fs_fault w (Unlink LOCK_FILE)) eqn:Hf; settle; reflexivity.
  - run. settle. destruct (fs_fault w (Unlink LOCK_FILE)) eqn:Hf; settle; reflexivity.
Qed.

(** C7 (amended).  [api_clear_lock]: when the probe answers running, the
    answer is 409 and the world, marker included, is unchanged; when it
    answers stale and the marker can be unlinked, the marker is removed,
    the answer is 200, and the probe then answers idle; when it answers
    stale and unlinking raises, the answer is 500 with the exception's
    message and the marker stays; when there is no marker (idle), the
    answer is 200 and nothing changes. *)
Theorem api_clear_lock_spec (w : world) :
  (forall pid,
     fst (get_build_status w) = Py.Return (running_status pid) ->
     api_clear_lock w =
     (Py.Return (mkResponse [("success", Py.VBool false);
                             ("message", Py.VStr "Cannot clear lock while build is running")]
                            409), w)) /\
  (forall pid,
     fst (get_build_status w) = Py.Return (stale_status pid) ->
     fs_fault w (Unlink LOCK_FILE) = None ->
     api_clear_lock w =
     (Py.Return (mkResponse [("success", Py.VBool true);
                             ("message", Py.VStr "Lock file cleared successfully")] 200),
      set_file LOCK_FILE None w) /\
     lock_file (snd (api_clear_lock w)) = None /\
     fst (get_build_status (snd (api_clear_lock w))) = Py.Return idle_status) /\
  (forall pid e,
     fst (get_build_status w) = Py.Return (stale_status pid) ->
     fs_fault w (Unlink LOCK_FILE) = Some e ->
     api_clear_lock w =
     (Py.Return (mkResponse [("success", Py.VBool false);
                             ("message", Py.VStr ("Failed to clear lock: "
                                                  ++ Py.str_exn e))] 500), w)) /\
  (lock_file w = None ->
   fst (get_build_status w) = Py.Return idle_status /\
   api_clear_lock w =
   (Py.Return (mkResponse [("success", Py.VBool true);
                           ("message", Py.VStr "No lock file to clear")] 200), w)).
Proof.
  refine (conj _ (conj _ (conj _ _))).
  - intros pid H. apply probed_inv in H.
    unfold api_clear_lock, bind. rewrite get_build_status_probe, H. reflexivity.
  - intros pid H Hok. apply probed_inv in H.
    assert (Hun := api_clear_lock_unlink w).
    rewrite H, Hok in Hun. rewrite Hun.
    + cbn [snd]. rewrite get_build_status_after_unlink. repeat split.
    + discriminate.
    + exact (probe_stale_inv w pid H).
  - intros pid e H Hfault. apply probed_inv in H.
    assert (Hun := api_clear_lock_unlink w).
    rewrite H, Hfault in Hun. apply Hun.
    + discriminate.
    + exact (probe_stale_inv w pid H).
  - intros Hnone. rewrite get_build_status_probe.
    unfold api_clear_lock, bind. rewrite get_build_status_probe.
    rewrite (probe_absent w Hnone). run. rewrite Hnone. split; reflexivity.
Qed.

Lemma api_clear_lock_spec_witness :
  fst (api_clear_lock w_running) =
    Py.Return (mkResponse [("success", Py.VBool false);
                           ("message", Py.VStr "Cannot clear lock while build is running")]
                          409) /\
  lock_file (snd (api_clear_lock w_stale)) = None /\
  api_clear_lock w_stale_undeletable =
    (Py.Return (mkResponse [("success", Py.VBool false);
                            ("message", Py.VStr ("Failed to clear lock: "
                                                 ++ "[Errno 1] Operation not permitted"))] 500),
     w_stale_undeletable) /\
  fst (api_clear_lock w_idle) =
    Py.Return (mkResponse [("success", Py.VBool true);
                           ("message", Py.VStr "No lock file to clear")] 200).
Proof.
  refine (conj _ (conj _ (conj _ _))).
  - rewrite (proj1 (api_clear_lock_spec w_running) 4242); reflexivity.
  - apply (proj1 (proj2 (api_clear_lock_spec w_stale)) 99999999); reflexivity.
  - apply (proj1 (proj2 (proj2 (api_clear_lock_spec w_stale_undeletable)))
             99999999 (Py.os_error Py.EPERM)); reflexivity.
  - rewrite (proj2 (proj2 (proj2 (proj2 (api_clear_lock_spec w_idle))) eq_refl)).
    reflexivity.
Defined.

(** C7, counterexample.  The marker names a process that is gone, so
    the probe answers stale, and unlinking the marker is not permitted:
    [api_clear_lock] answers 500, not 200, and the marker is still
    there. *)
Lemma api_clear_lock_stale_undeletable :
  fst (get_build_status w_stale_undeletable) = Py.Return (stale_status 99999999) /\
  status_code
    match fst (api_clear_lock w_stale_undeletable) with
    | Py.Return r => r
    | Py.Raise _ => jsonify []
    end = 500 /\
  lock_file (snd (api_clear_lock w_stale_undeletable)) <> None.
Proof. repeat split. discriminate. Qed.

(** C10 (amended).  When the probe answers error, [api_clear_lock] is
    not stopped by the running guard: it unlinks the marker.  If the
    unlink succeeds, the marker is removed, the answer is 200 with
    [success] true and the probe then answers idle; if the unlink
    raises, the answer is 500 with the exception's message and the
    marker stays.  The answer is never 409. *)
Theorem api_clear_lock_on_error (w : world) (message : string) :
  fst (get_build_status w) = Py.Return (error_status message) ->
  (fs_fault w (Unlink LOCK_FILE) = None ->
   api_clear_lock w =
   (Py.Return (mkResponse [("success", Py.VBool true);
                           ("message", Py.VStr "Lock file cleared successfully")] 200),
    set_file LOCK_FILE None w) /\
   fst (get_build_status (snd (api_clear_lock w))) = Py.Return idle_status) /\
  (forall e,
     fs_fault w (Unlink LOCK_FILE) = Some e ->
     api_clear_lock w =
     (Py.Return (mkResponse [("success", Py.VBool false);
                             ("message", Py.VStr ("Failed to clear lock: "
                                                  ++ Py.str_exn e))] 500), w)) /\
  (forall r, fst (api_clear_lock w) = Py.Return r -> status_code r <> 409).
Proof.
  intros H. apply probed_inv in H.
  assert (Hun := api_clear_lock_unlink w). rewrite H in Hun.
  specialize (Hun ltac:(discriminate) (probe_error_inv w message H)).
  rewrite Hun. refine (conj _ (conj _ _)).
  - intros ->. cbn [snd]. rewrite get_build_status_after_unlink. split; reflexivity.
  - intros e ->. reflexivity.
  - intros r. destruct (fs_fault w (Unlink LOCK_FILE)); cbn; intros [= <-]; discriminate.
Qed.

Lemma api_clear_lock_on_error_witness :
  api_clear_lock w_corrupt =
  (Py.Return (mkResponse [("success", Py.VBool true);
                          ("message", Py.VStr "Lock file cleared successfully")] 200),
   set_file LOCK_FILE None w_corrupt) /\
  fst (get_build_status (snd (api_clear_lock w_corrupt))) = Py.Return idle_status.
Proof.
  apply (proj1 (api_clear_lock_on_error w_corrupt
                  "invalid literal for int() with base 10: 'not a pid'" eq_refl)).
  reflexivity.
Defined.

(** C10, counterexample.  The marker holds text that is no integer, so
    the probe answers error, and unlinking the marker is not permitted:
    [api_clear_lock] answers 500 with [success] false, and the corrupt
    marker is still there. *)
Lemma api_clear_lock_corrupt_undeletable :
  fst (get_build_status w_corrupt_undeletable) =
    Py.Return (error_status "invalid literal for int() with base 10: 'not a pid'") /\
  fst (api_clear_lock w_corrupt_undeletable) =
    Py.Return (mkResponse [("success", Py.VBool false);
                           ("message", Py.VStr ("Failed to clear lock: "
                                                ++ "[Errno 1] Operation not permitted"))]
                          500) /\
  lock_file (snd (api_clear_lock w_corrupt_undeletable)) = Some "not a pid".
Proof. repeat split. Qed.

(** *** The log sink *)

Lemma deque_append_length (m : Z) (x : string) (d : list string) :
  0 < m ->
  (List.length d <= Z.to_nat m)%nat ->
  List.length (deque_append m x d) = Nat.min (S (List.length d)) (Z.to_nat m).
Proof.
  intros Hm H. unfold deque_append.
  destruct (m <? Z.of_nat (List.length (d ++ [x])%list)) eqn:E;
    rewrite length_app in E; cbn [List.length] in E.
  - apply Z.ltb_lt in E.
    destruct d as [|y d]; cbn [List.length] in *; [lia|].
    cbn [app tl]. rewrite length_app. cbn [List.length]. lia.
  - apply Z.ltb_ge in E. rewrite length_app. cbn [List.length]. lia.
Qed.

(** The deque of the module never holds more than [MAX_LOG_LINES] lines. *)
Lemma log_buffer_append_bounded (line : string) (w : world) :
  (List.length (log_buffer w) <= Z.to_nat MAX_LOG_LINES)%nat ->
  (List.length (log_buffer (snd (log_buffer_append line w))) <= Z.to_nat MAX_LOG_LINES)%nat.
Proof.
  intros H. unfold log_buffer_append. cbn [snd log_buffer set_log_buffer].
  rewrite deque_append_length by (assumption || reflexivity). lia.
Qed.

(** One append keeps the last [maxlen] items. *)
Lemma deque_append_last_n (m : Z) (x : string) (d : list string) :
  0 < m ->
  (List.length d <= Z.to_nat m)%nat ->
  deque_append m x d = last_n (Z.to_nat m) (d ++ [x])%list.
Proof.
  intros Hm H. unfold deque_append, last_n.
  destruct (m <? Z.of_nat (List.length (d ++ [x])%list)) eqn:E;
    rewrite length_app in *; cbn [List.length] in *.
  - apply Z.ltb_lt in E.
    replace (List.length d + 1 - Z.to_nat m)%nat with 1%nat by lia.
    reflexivity.
  - apply Z.ltb_ge in E.
    replace (List.length d + 1 - Z.to_nat m)%nat with 0%nat by lia.
    reflexivity.
Qed.

Lemma last_n_length {A} (n : nat) (l : list A) :
  List.length (last_n n l) = Nat.min n (List.length l).
Proof. unfold last_n. rewrite length_skipn. lia. Qed.

Lemma last_n_app_last_n {A} (n : nat) (l ls : list A) :
  last_n n (last_n n l ++ ls)%list = last_n n (l ++ ls)%list.
Proof.
  unfold last_n.
  rewrite !length_app, length_skipn.
  rewrite !skipn_app, length_skipn, skipn_skipn.
  f_equal.
  - f_equal. lia.
  - f_equal. lia.
Qed.

(** FIFO eviction: appends to a deque within its bound leave the last
    [MAX_LOG_LINES] items of what was held and what was appended, in
    arrival order. *)
Lemma fold_deque_append_last_n (m : Z) (ls d : list string) :
  0 < m ->
  (List.length d <= Z.to_nat m)%nat ->
  fold_left (fun d x => deque_append m x d) ls d
  = last_n (Z.to_nat m) (d ++ ls)%list.
Proof.
  intros Hm. revert d. induction ls as [|x ls IH]; intros d H; cbn [fold_left].
  - rewrite app_nil_r. unfold last_n.
    replace (List.length d - Z.to_nat m)%nat with 0%nat by lia.
    reflexivity.
  - rewrite IH.
    + rewrite deque_append_last_n by assumption.
      rewrite last_n_app_last_n, <- app_assoc. reflexivity.
    + rewrite deque_append_length by assumption. lia.
Qed.

Lemma buffer_of_last_n (ls : list string) :
  buffer_of ls = last_n (Z.to_nat MAX_LOG_LINES) ls.
Proof.
  unfold buffer_of. rewrite fold_deque_append_last_n; [reflexivity|reflexivity|].
  cbn [List.length]. lia.
Qed.

Lemma log_lines_buffer (ls : list string) (w : world) :
  log_lines ls w
  = (Py.Return tt,
     set_log_buffer
       (fold_left (fun d x => deque_append MAX_LOG_LINES x d) ls (log_buffer w)) w).
Proof.
  revert w. induction ls as [|l ls IH]; intros w; cbn [log_lines fold_left].
  - destruct w; reflexivity.
  - unfold bind, log_buffer_append. rewrite IH. destruct w; reflexivity.
Qed.

(** [xs[-n:]] for a positive [n] is the last [n] items. *)
Lemma slice_from_neg_positive {A} (xs : list A) (n : Z) :
  1 <= n -> Py.slice_from_neg xs n = last_n (Z.to_nat n) xs.
Proof.
  intros H. unfold Py.slice_from_neg, last_n.
  destruct (- n <? 0) eqn:E; [|apply Z.ltb_ge in E; lia].
  f_equal. lia.
Qed.

(** The response of [api_logs] in a world; the handler changes
    nothing. *)
Lemma api_logs_eq (arg : option string) (w : world) :
  api_logs arg w =
  let lines := Z.min (args_get_int arg 100) MAX_LOG_LINES in
  let recent := buffer_tail (log_buffer w) lines in
  (Py.Return
     (mkResponse
        [("logs",
          Py.VList
            (if is_empty recent then
               match log_file w with
               | Some text =>
                   match fs_fault w (OpenRead LOG_FILE) with
                   | Some _ => recent
                   | None => Py.slice_from_neg (Py.readlines text) lines
                   end
               | None => recent
               end
             else recent));
         ("total_lines", Py.VInt (Z.of_nat (List.length (log_buffer w))));
         ("timestamp", Py.VStr (now w))] 200), w).
Proof.
  unfold api_logs, bind, log_buffer_list, datetime_now, try_except, ret,
    path_exists, read_text, file_at, jsonify.
  cbv zeta.
  destruct (is_empty (buffer_tail (log_buffer w)
              (Z.min (args_get_int arg 100) MAX_LOG_LINES))) eqn:E.
  - split_on (log_file w); [|reflexivity].
    split_on (fs_fault w (OpenRead LOG_FILE)); reflexivity.
  - reflexivity.
Qed.

Lemma last_n_min {A} (n : nat) (l : list A) :
  last_n (Nat.min n (List.length l)) l = last_n n l.
Proof. unfold last_n. f_equal. lia. Qed.

(** The buffer read of [api_logs] for a request of at least one line:
    the most recent [min(lines, MAX_LOG_LINES, len(buffer))] lines, in
    arrival order. *)
Lemma buffer_tail_positive (buffer : list string) (lines : Z) :
  1 <= lines ->
  buffer_tail buffer (Z.min lines MAX_LOG_LINES)
  = last_n (Z.to_nat (Z.min lines (Z.min MAX_LOG_LINES (Z.of_nat (List.length buffer)))))
           buffer.
Proof.
  intros H. unfold buffer_tail.
  destruct buffer as [|x buffer]; [reflexivity|].
  cbn [is_empty].
  rewrite slice_from_neg_positive by (unfold MAX_LOG_LINES; lia).
  rewrite <- last_n_min. f_equal. unfold MAX_LOG_LINES. lia.
Qed.

(** After more than [MAX_LOG_LINES] appends the buffer read for
    [MAX_LOG_LINES] lines gives the last [MAX_LOG_LINES] of them. *)
Lemma buffer_tail_after_overflow (ls : list string) :
  (Z.to_nat MAX_LOG_LINES < List.length ls)%nat ->
  buffer_tail (buffer_of ls) (Z.min MAX_LOG_LINES MAX_LOG_LINES)
  = last_n (Z.to_nat MAX_LOG_LINES) ls.
Proof.
  intros H. rewrite buffer_tail_positive by (unfold MAX_LOG_LINES; lia).
  rewrite buffer_of_last_n, last_n_length.
  replace (Z.to_nat _) with (Z.to_nat MAX_LOG_LINES)
    by (unfold MAX_LOG_LINES in *; lia).
  unfold last_n at 1. rewrite last_n_length.
  replace (_ - _)%nat with 0%nat by (unfold MAX_LOG_LINES in *; lia).
  reflexivity.
Qed.

Example snapshot_of_two_lines :
  response_logs (fst (api_logs (Some "1") w_two_lines)) = [("line2" ++ nl)%string].
Proof. reflexivity. Qed.

(** C4, at the failing request.  The deque holds two lines and the
    request asks for [lines=0]: [min(0, 1000, 2)] is 0, and the response
    carries both lines, because the slice [[-0:]] is the whole list. *)
Theorem api_logs_zero_lines_returns_buffer :
  Z.min 0 (Z.min MAX_LOG_LINES (Z.of_nat (List.length (log_buffer w_two_lines)))) = 0 /\
  response_logs (fst (api_logs (Some "0") w_two_lines))
  = [("line1" ++ nl)%string; ("line2" ++ nl)%string] /\
  response_logs (fst (api_logs (Some "-1") w_two_lines)) = [("line2" ++ nl)%string].
Proof. repeat split. Qed.

Lemma response_logs_eq (l : list string) (rest : Py.dict) (c : Z) (w : world) :
  response_logs (fst (Py.Return (mkResponse (("logs", Py.VList l) :: rest) c), w)) = l.
Proof. reflexivity. Qed.

(** The number of lines in a response of [api_logs] to a request for at
    least one line is at most that number and at most [MAX_LOG_LINES],
    on the buffer path and on the log file path. *)
Lemma api_logs_cap_positive (arg : option string) (w : world) :
  1 <= args_get_int arg 100 ->
  Z.of_nat (List.length (response_logs (fst (api_logs arg w))))
  <= Z.min (args_get_int arg 100) MAX_LOG_LINES.
Proof.
  intros H. rewrite api_logs_eq. cbv zeta. rewrite response_logs_eq.
  set (lines := Z.min (args_get_int arg 100) MAX_LOG_LINES).
  assert (Hl : 1 <= lines) by (unfold lines, MAX_LOG_LINES; lia).
  assert (Hb : Z.of_nat (List.length (buffer_tail (log_buffer w) lines)) <= lines).
  { unfold buffer_tail. destruct (is_empty (log_buffer w)); [cbn; lia|].
    rewrite slice_from_neg_positive, last_n_length by assumption. lia. }
  destruct (is_empty (buffer_tail (log_buffer w) lines)); [|assumption].
  destruct (log_file w) as [text|]; [|assumption].
  destruct (fs_fault w (OpenRead LOG_FILE)); [assumption|].
  rewrite slice_from_neg_positive, last_n_length by assumption. lia.
Qed.

Lemma api_logs_default_lines : args_get_int None 100 = 100.
Proof. reflexivity. Qed.

(** C8, at the failing request.  The deque is empty, the durable log
    file holds 1001 lines and the request asks for [lines=0]: the
    response carries all 1001 lines of the file, more than the cap of
    1000. *)
Theorem api_logs_zero_lines_returns_whole_file :
  log_buffer w_restarted = [] /\
  List.length (response_logs (fst (api_logs (Some "0") w_restarted))) = 1001%nat.
Proof. split; vm_compute; reflexivity. Qed.

Lemma response_total_lines_eq (x y : string * Py.value) (v : Py.value) (c : Z) (w : world) :
  fst x = "logs" ->
  response_total_lines (fst (Py.Return (mkResponse [x; ("total_lines", v); y] c), w)) = v.
Proof. destruct x as [k u]. cbn. intros ->. reflexivity. Qed.

(** C9 (amended).  After [clear()] and any appends, [total_lines] in
    the response of [api_logs] is the number of lines the deque holds
    now, which is the number of appends or [MAX_LOG_LINES], whichever is
    less; evicted lines are not counted. *)
Theorem api_logs_total_lines_is_buffer_length
    (w : world) (ls : list string) (arg : option string) :
  response_total_lines (fst (api_logs arg (after_appends ls w)))
  = Py.VInt (Z.of_nat (List.length (log_buffer (after_appends ls w)))) /\
  response_total_lines (fst (api_logs arg (after_appends ls w)))
  = Py.VInt (Z.min (Z.of_nat (List.length ls)) MAX_LOG_LINES).
Proof.
  rewrite api_logs_eq. cbv zeta. rewrite response_total_lines_eq by reflexivity.
  split; [reflexivity|].
  unfold after_appends. rewrite log_lines_buffer.
  cbn [snd log_buffer_clear set_log_buffer log_buffer].
  change (fold_left _ ls []) with (buffer_of ls).
  rewrite buffer_of_last_n, last_n_length.
  f_equal. unfold MAX_LOG_LINES. lia.
Qed.

(** C9, counterexample.  After [clear()] and 1001 appends,
    [total_lines] is 1000, not 1001. *)
Lemma api_logs_total_lines_misses_evicted :
  response_total_lines (fst (api_logs None w_long_build)) = Py.VInt 1000 /\
  Py.VInt 1000 <> Py.VInt (Z.of_nat (List.length (repeat ("x" ++ nl)%string 1001))).
Proof.
  split; [vm_compute; reflexivity|].
  rewrite repeat_length. discriminate.
Qed.

(** *** The build thread *)

Lemma stream_output_line (line : string) (rest : list read_event) (w : world) :
  line <> EmptyString ->
  stream_output (Line line None :: rest) w = stream_output rest (consume line w).
Proof.
  intros H. cbn [stream_output]. unfold truthy.
  destruct (String.eqb_spec line EmptyString) as [E|_]; [contradiction|].
  reflexivity.
Qed.

Lemma stream_output_write_fault
    (line : string) (e : Py.exn) (rest : list read_event) (w : world) :
  line <> EmptyString ->
  stream_output (Line line (Some e) :: rest) w
  = (Py.Raise e, snd (log_buffer_append line w)).
Proof.
  intros H. cbn [stream_output]. unfold truthy.
  destruct (String.eqb_spec line EmptyString) as [E|_]; [contradiction|].
  reflexivity.
Qed.

Lemma stream_output_lines (pre : list string) (rest : list read_event) (w : world) :
  Forall (fun l => l <> EmptyString) pre ->
  stream_output (map (fun l => Line l None) pre ++ rest)%list w
  = stream_output rest (fold_left (fun w l => consume l w) pre w).
Proof.
  intros H. revert w. induction H as [|l pre Hl _ IH]; intros w.
  - reflexivity.
  - cbn [map app fold_left]. rewrite stream_output_line by assumption. apply IH.
Qed.

Lemma consumed_now (pre : list string) (w : world) :
  now (fold_left (fun w l => consume l w) pre w) = now w.
Proof.
  revert w. induction pre as [|l pre IH]; intros w; cbn [fold_left].
  - reflexivity.
  - rewrite IH. reflexivity.
Qed.

Lemma consumed_log_buffer (pre : list string) (w : world) :
  log_buffer (fold_left (fun w l => consume l w) pre w)
  = fold_left (fun d x => deque_append MAX_LOG_LINES x d) pre (log_buffer w).
Proof.
  revert w. induction pre as [|l pre IH]; intros w; cbn [fold_left].
  - reflexivity.
  - rewrite IH. reflexivity.
Qed.

(** A run in which every line is written: the deque holds the start
    marker, the child's lines in order and the completion marker, which
    reports success for exit code 0 and the code otherwise. *)
Lemma run_build_async_completes (w : world) (lines : list string) (rc : Z) :
  Forall (fun l => l <> EmptyString) lines ->
  fst (run_build_async (Spawned (mkChild (map (fun l => Line l None) lines) rc)) w)
  = Py.Return tt /\
  log_buffer (snd (run_build_async
                     (Spawned (mkChild (map (fun l => Line l None) lines) rc)) w))
  = buffer_of (start_marker (now w) :: lines
               ++ [if rc =? 0 then success_marker (now w)
                   else failure_marker (now w) rc])%list.
Proof.
  intros Hlines.
  unfold run_build_async, bind, try_except, log_buffer_clear, datetime_now, Popen,
    log_buffer_append.
  cbn [stdout returncode].
  rewrite <- (app_nil_r (map _ lines)).
  rewrite stream_output_lines by assumption.
  cbn [stream_output ret].
  unfold buffer_of. cbn [fold_left]. rewrite fold_left_app. cbn [fold_left].
  destruct (rc =? 0); unfold log_buffer_append;
    cbn [fst snd log_buffer set_log_buffer now add_child];
    rewrite consumed_now, consumed_log_buffer; split; reflexivity.
Qed.

(** C5 (amended).  When the append of a line to the durable log file
    fails, [run_build_async] stops streaming: the deque holds the start
    marker, the lines before, that line and, last, the error marker with
    the failure's message; no later line of the child is read and no
    completion marker is appended.  The thread itself returns normally. *)
Theorem run_build_async_write_failure
    (w : world) (pre : list string) (line : string) (e : Py.exn)
    (rest : list read_event) (rc : Z) :
  Forall (fun l => l <> EmptyString) pre ->
  line <> EmptyString ->
  fst (run_build_async
         (Spawned (mkChild (map (fun l => Line l None) pre
                            ++ Line line (Some e) :: rest)%list rc)) w)
  = Py.Return tt /\
  log_buffer (snd (run_build_async
         (Spawned (mkChild (map (fun l => Line l None) pre
                            ++ Line line (Some e) :: rest)%list rc)) w))
  = buffer_of (start_marker (now w) :: pre ++ [line; error_marker (now w) e])%list.
Proof.
  intros Hpre Hline.
  unfold run_build_async, bind, try_except, log_buffer_clear, datetime_now, Popen,
    log_buffer_append.
  cbn [stdout returncode].
  rewrite stream_output_lines by assumption.
  rewrite stream_output_write_fault by assumption.
  unfold log_buffer_append.
  cbn [Py.is_Exception fst snd log_buffer set_log_buffer now add_child].
  rewrite consumed_now, consumed_log_buffer.
  split; [reflexivity|].
  unfold buffer_of. cbn [fold_left]. rewrite fold_left_app. reflexivity.
Qed.

Lemma run_build_async_write_failure_witness :
  log_buffer (snd (run_build_async disk_full_script w_idle))
  = buffer_of [start_marker (now w_idle); ("a" ++ nl)%string;
               error_marker (now w_idle) (Py.os_error Py.ENOSPC)].
Proof.
  apply (run_build_async_write_failure w_idle [] ("a" ++ nl)
           (Py.os_error Py.ENOSPC) [Line ("b" ++ nl) None] 0).
  - constructor.
  - discriminate.
Defined.

(** C5, counterexample.  The disk is full when the child's first line
    is appended to the log file; the child prints a second line and
    exits with 0.  The second line never reaches the deque and no
    completion marker is appended: the deque ends with the error
    marker. *)
Lemma run_build_async_stops_at_write_failure :
  log_buffer (snd (run_build_async disk_full_script w_idle))
  = [start_marker (now w_idle); ("a" ++ nl)%string;
     error_marker (now w_idle) (Py.os_error Py.ENOSPC)] /\
  ~ In ("b" ++ nl)%string (log_buffer (snd (run_build_async disk_full_script w_idle))) /\
  ~ In (success_marker (now w_idle))
       (log_buffer (snd (run_build_async disk_full_script w_idle))).
Proof.
  split; [reflexivity|].
  split; cbn; intros H; repeat (destruct H as [H|H]; [discriminate H|]); exact H.
Qed.

(** ** Further properties of the lock probe *)

(** Every answer of the probe is one of four dictionaries: the status
    alone for idle, the status and a pid for running and for stale, the
    status and a message for error.  So an answer whose status is
    running or stale carries the pid the handlers subscript, and the
    probe has changed nothing. *)
Theorem get_build_status_answer_shape (w : world) (d : Py.dict) :
  fst (get_build_status w) = Py.Return d ->
  snd (get_build_status w) = w /\
  (d = idle_status \/
   (exists pid, d = running_status pid) \/
   (exists pid, d = stale_status pid) \/
   (exists message, d = error_status message)) /\
  (Py.get d "status" = Py.VStr "running" \/ Py.get d "status" = Py.VStr "stale_lock" ->
   exists pid, Py.dict_get d "pid" = Some (Py.VInt pid)).
Proof.
  intros H. apply probed_inv in H. subst d.
  split; [rewrite get_build_status_probe; reflexivity|].
  destruct (probe_cases w) as [E | [[pid E] | [[pid E] | [msg E]]]];
    rewrite E; (split; [eauto 6|]); cbn;
    intros [H|H]; try discriminate H; eauto.
Qed.

Lemma get_build_status_answer_shape_witness :
  exists pid, Py.dict_get (stale_status 99999999) "pid" = Some (Py.VInt pid).
Proof.
  apply (proj2 (proj2 (get_build_status_answer_shape w_stale (stale_status 99999999)
                         eq_refl))).
  right. reflexivity.
Defined.

(** What an answer of the probe tells about the world: idle is given
    exactly when the marker is absent; running with a pid only when the
    marker could be read, its stripped text is that integer, the integer
    is a C [int] and [kill(pid, 0)] succeeded; stale with a pid only
    when all that holds except that [kill(pid, 0)] failed. *)
Theorem get_build_status_sound (w : world) :
  (fst (get_build_status w) = Py.Return idle_status <-> lock_file w = None) /\
  (forall pid,
     fst (get_build_status w) = Py.Return (running_status pid) ->
     (exists text,
        lock_file w = Some text /\ Py.int (Py.strip text) = Py.Return pid) /\
     fs_fault w (OpenRead LOCK_FILE) = None /\
     INT_MIN <= pid <= INT_MAX /\
     kill_errno w pid 0 = None) /\
  (forall pid,
     fst (get_build_status w) = Py.Return (stale_status pid) ->
     (exists text,
        lock_file w = Some text /\ Py.int (Py.strip text) = Py.Return pid) /\
     fs_fault w (OpenRead LOCK_FILE) = None /\
     INT_MIN <= pid <= INT_MAX /\
     exists n, kill_errno w pid 0 = Some n).
Proof.
  refine (conj _ (conj _ _)).
  - split.
    + intros H. apply probed_inv in H. exact (probe_idle_inv w H).
    + intros H. rewrite get_build_status_probe, (probe_absent w H). reflexivity.
  - intros pid H. apply probed_inv in H.
    probe_split w; try discriminate H. injection H as <-.
    apply Z.ltb_ge in Hmin, Hmax. eauto 8.
  - intros pid H. apply probed_inv in H.
    probe_split w; try discriminate H. injection H as <-.
    apply Z.ltb_ge in Hmin, Hmax. eauto 8.
Qed.

Lemma get_build_status_sound_witness :
  lock_file w_idle = None /\
  kill_errno w_running 4242 0 = None /\
  (exists n, kill_errno w_stale 99999999 0 = Some n).
Proof.
  refine (conj _ (conj _ _)).
  - apply (proj1 (proj1 (get_build_status_sound w_idle))). reflexivity.
  - apply (proj1 (proj2 (get_build_status_sound w_running)) 4242). reflexivity.
  - apply (proj2 (proj2 (get_build_status_sound w_stale)) 99999999). reflexivity.
Defined.

(** *** Writing and reading a pid *)

Lemma digits_string_of_uint (d : Decimal.uint) (acc : Z) (seen : bool) :
  d <> Decimal.Nil \/ seen = true ->
  Py.digits acc seen (NilEmpty.string_of_uint d) = Some (uint_value d acc).
Proof.
  revert acc seen. induction d; intros acc seen H;
    try (cbn [NilEmpty.string_of_uint Py.digits uint_value];
         change (Py.digit_of _) with (Some 0) ||
         change (Py.digit_of _) with (Some 1) ||
         change (Py.digit_of _) with (Some 2) ||
         change (Py.digit_of _) with (Some 3) ||
         change (Py.digit_of _) with (Some 4) ||
         change (Py.digit_of _) with (Some 5) ||
         change (Py.digit_of _) with (Some 6) ||
         change (Py.digit_of _) with (Some 7) ||
         change (Py.digit_of _) with (Some 8) ||
         change (Py.digit_of _) with (Some 9);
         apply IHd; auto).
  destruct H as [H | ->]; [congruence | reflexivity].
Qed.

Lemma uint_value_of_uint_acc (d : Decimal.uint) (acc : positive) :
  uint_value d (Z.pos acc) = Z.pos (Pos.of_uint_acc d acc).
Proof.
  revert acc. induction d; intros acc; cbn [uint_value Pos.of_uint_acc];
    try reflexivity;
    rewrite <- IHd; f_equal; lia.
Qed.

Lemma uint_value_of_uint (d : Decimal.uint) :
  uint_value d 0 = Z.of_N (Pos.of_uint d).
Proof.
  induction d; cbn [uint_value Pos.of_uint]; try reflexivity; try assumption;
    cbn [Z.mul Z.add Z.of_N]; apply uint_value_of_uint_acc.
Qed.

Lemma uint_value_to_uint (p : positive) :
  uint_value (Pos.to_uint p) 0 = Z.pos p.
Proof.
  rewrite uint_value_of_uint, DecimalPos.Unsigned.of_to. reflexivity.
Qed.

Lemma sign_or_digit_no_space (c : ascii) :
  sign_or_digit c = true -> Py.isspace c = false /\ Py.c_isspace c = false.
Proof.
  destruct c as [[|] [|] [|] [|] [|] [|] [|] [|]]; cbn; intros H;
    try discriminate H; split; reflexivity.
Qed.

Lemma lstrip_by_kept (space : ascii -> bool) (s : string) :
  string_forall (fun c => negb (space c)) s = true -> Py.lstrip_by space s = s.
Proof.
  destruct s as [|c r]; cbn; [reflexivity|].
  destruct (space c); cbn; [discriminate|reflexivity].
Qed.

(** White space after text without white space is what [rstrip] drops. *)
Lemma rstrip_by_app (space : ascii -> bool) (s t : string) :
  string_forall (fun c => negb (space c)) s = true ->
  Py.rstrip_by space t = EmptyString ->
  Py.rstrip_by space (s ++ t) = s.
Proof.
  intros Hs Ht. induction s as [|c r IH]; cbn [String.append Py.rstrip_by].
  - exact Ht.
  - cbn in Hs. apply andb_prop in Hs. destruct Hs as [Hc Hr].
    rewrite (IH Hr). destruct r; [|reflexivity].
    destruct (space c); [discriminate|reflexivity].
Qed.

Lemma string_forall_weaken (p q : ascii -> bool) (s : string) :
  (forall c, p c = true -> q c = true) ->
  string_forall p s = true -> string_forall q s = true.
Proof.
  intros H. induction s as [|c r IH]; cbn; [reflexivity|].
  intros Hs. apply andb_prop in Hs. destruct Hs as [Hc Hr].
  rewrite (H c Hc), (IH Hr). reflexivity.
Qed.

Lemma string_of_uint_digits (d : Decimal.uint) :
  string_forall sign_or_digit (NilEmpty.string_of_uint d) = true.
Proof. induction d; cbn; auto. Qed.

Lemma str_Z_chars (z : Z) : string_forall sign_or_digit (Py.str_Z z) = true.
Proof.
  unfold Py.str_Z, NilZero.string_of_int, NilZero.string_of_uint.
  destruct z as [|p|p]; cbn [Z.to_int]; [reflexivity| |];
    destruct (Pos.to_uint p) eqn:E; try reflexivity;
    rewrite <- E; cbn [string_forall]; rewrite ?string_of_uint_digits; reflexivity.
Qed.

Lemma signed_digits_str_Z (z : Z) : Py.signed_digits (Py.str_Z z) = Some z.
Proof.
  unfold Py.str_Z, NilZero.string_of_int, NilZero.string_of_uint.
  destruct z as [|p|p]; cbn [Z.to_int]; [reflexivity| |].
  - assert (Hd : Py.digits 0 false (NilEmpty.string_of_uint (Pos.to_uint p))
                 = Some (Z.pos p)).
    { rewrite digits_string_of_uint, uint_value_to_uint; [reflexivity|].
      left. apply DecimalPos.Unsigned.to_uint_nonnil. }
    destruct (Pos.to_uint p) eqn:E;
      [exfalso; exact (DecimalPos.Unsigned.to_uint_nonnil p E) | exact Hd ..].
  - assert (Hd : Py.digits 0 false (NilEmpty.string_of_uint (Pos.to_uint p))
                 = Some (Z.pos p)).
    { rewrite digits_string_of_uint, uint_value_to_uint; [reflexivity|].
      left. apply DecimalPos.Unsigned.to_uint_nonnil. }
    destruct (Pos.to_uint p) eqn:E;
      [exfalso; exact (DecimalPos.Unsigned.to_uint_nonnil p E) | ..];
      cbn [Py.signed_digits]; rewrite Hd; reflexivity.
Qed.

Lemma rstrip_by_kept (space : ascii -> bool) (s : string) :
  string_forall (fun c => negb (space c)) s = true -> Py.rstrip_by space s = s.
Proof.
  induction s as [|c r IH]; cbn [string_forall Py.rstrip_by]; [reflexivity|].
  intros Hs. apply andb_prop in Hs. destruct Hs as [Hc Hr].
  rewrite (IH Hr). destruct r; [|reflexivity].
  destruct (space c); [discriminate|reflexivity].
Qed.

Lemma lstrip_by_kept_app (space : ascii -> bool) (s t : string) :
  string_forall (fun c => negb (space c)) s = true ->
  s <> EmptyString ->
  Py.lstrip_by space (s ++ t) = (s ++ t)%string.
Proof.
  destruct s as [|c r]; [congruence|]. cbn. intros H _.
  destruct (space c); [discriminate|reflexivity].
Qed.

Lemma str_Z_nonempty (z : Z) : Py.str_Z z <> EmptyString.
Proof.
  intros E. assert (H := signed_digits_str_Z z). rewrite E in H. discriminate H.
Qed.

(** [int(str(z))] is [z], also when the text is followed by a line end
    and stripped first, as the marker is, and when [int] itself has to
    skip white space around the digits. *)
Lemma int_str_round_trip (z : Z) :
  Py.int (Py.str_Z z) = Py.Return z /\
  Py.int (Py.strip (Py.str_Z z ++ nl)) = Py.Return z /\
  Py.int (" " ++ Py.str_Z z ++ nl) = Py.Return z.
Proof.
  assert (Hc := str_Z_chars z).
  assert (Hs : string_forall (fun c => negb (Py.isspace c)) (Py.str_Z z) = true).
  { revert Hc. apply string_forall_weaken. intros c H.
    destruct (sign_or_digit_no_space c H) as [-> _]. reflexivity. }
  assert (Hcs : string_forall (fun c => negb (Py.c_isspace c)) (Py.str_Z z) = true).
  { revert Hc. apply string_forall_weaken. intros c H.
    destruct (sign_or_digit_no_space c H) as [_ ->]. reflexivity. }
  assert (H0 : Py.int (Py.str_Z z) = Py.Return z).
  { unfold Py.int. rewrite lstrip_by_kept, rstrip_by_kept by assumption.
    rewrite signed_digits_str_Z. reflexivity. }
  refine (conj H0 (conj _ _)).
  - unfold Py.strip.
    rewrite lstrip_by_kept_app by (assumption || apply str_Z_nonempty).
    rewrite rstrip_by_app by (assumption || reflexivity).
    exact H0.
  - unfold Py.int. cbn [String.append Py.lstrip_by].
    change (Py.c_isspace " ") with true. cbv iota.
    rewrite lstrip_by_kept_app by (assumption || apply str_Z_nonempty).
    rewrite rstrip_by_app by (assumption || reflexivity).
    rewrite signed_digits_str_Z. reflexivity.
Qed.

(** A marker that holds the decimal text of a pid and a line end, as a
    shell writes it, is read back as that pid: the probe answers running
    with it when [kill(pid, 0)] succeeds and stale with it when it
    fails. *)
Theorem get_build_status_reads_written_pid (w : world) (pid : Z) :
  lock_file w = Some (Py.str_Z pid ++ nl)%string ->
  fs_fault w (OpenRead LOCK_FILE) = None ->
  INT_MIN <= pid <= INT_MAX ->
  (kill_errno w pid 0 = None ->
   get_build_status w = (Py.Return (running_status pid), w)) /\
  (forall n, kill_errno w pid 0 = Some n ->
   get_build_status w = (Py.Return (stale_status pid), w)).
Proof.
  intros Hlock Hread Hrange.
  destruct (c_int_range pid Hrange) as [Hlo Hhi].
  rewrite get_build_status_eq, Hlock, Hread.
  rewrite (proj1 (proj2 (int_str_round_trip pid))), Hlo, Hhi.
  split; [intros -> | intros n ->]; reflexivity.
Qed.

Lemma get_build_status_reads_written_pid_witness :
  get_build_status w_running = (Py.Return (running_status 4242), w_running).
Proof.
  apply (get_build_status_reads_written_pid w_running 4242).
  - reflexivity.
  - reflexivity.
  - split; discriminate.
  - reflexivity.
Defined.

(** ** Further properties of the log sink *)

(** FIFO eviction: after [clear()] and any appends the deque holds the
    last [MAX_LOG_LINES] of the appended lines, in arrival order, and
    all of them when there are fewer. *)
Theorem after_appends_keeps_last (w : world) (ls : list string) :
  log_buffer (after_appends ls w) = last_n (Z.to_nat MAX_LOG_LINES) ls.
Proof.
  unfold after_appends. rewrite log_lines_buffer.
  cbn [snd log_buffer_clear set_log_buffer log_buffer].
  apply buffer_of_last_n.
Qed.

Lemma slice_from_neg_suffix {A} (xs : list A) (n : Z) :
  exists pre, xs = (pre ++ Py.slice_from_neg xs n)%list.
Proof.
  unfold Py.slice_from_neg.
  exists (firstn (Z.to_nat
            (if - n <? 0 then Z.max 0 (- n + Z.of_nat (List.length xs))
             else Z.min (- n) (Z.of_nat (List.length xs)))) xs).
  symmetry. apply firstn_skipn.
Qed.

(** [api_logs] only reads: whatever the request, the deque, the files
    and the journals after the call are those before it, and a response
    it gives has status 200, also when the log file cannot be read; and
    a [lines] parameter in plain text that is no integer is treated as
    if it were absent. *)
Theorem api_logs_read_only (arg : option string) (w : world) :
  snd (api_logs arg w) = w /\
  (forall r, fst (api_logs arg w) = Py.Return r -> status_code r = 200) /\
  (forall s e,
     arg = Some s -> plain_text s = true -> Py.int s = Py.Raise e ->
     api_logs arg w = api_logs None w).
Proof.
  refine (conj _ (conj _ _)).
  - rewrite api_logs_eq. reflexivity.
  - rewrite api_logs_eq. cbv zeta. intros r [= <-]. reflexivity.
  - intros s e -> _ H. rewrite !api_logs_eq. unfold args_get_int. rewrite H.
    reflexivity.
Qed.

Lemma api_logs_read_only_witness :
  api_logs (Some "many") w_two_lines = api_logs None w_two_lines.
Proof.
  apply (proj2 (proj2 (api_logs_read_only (Some "many") w_two_lines)) "many"
           (Py.ValueError "invalid literal for int() with base 10: 'many'"));
    reflexivity.
Defined.

(** The lines in a response of [api_logs] are never padded or
    reordered, whatever the request: they are a suffix of the deque, or
    a suffix of the lines of the log file. *)
Theorem api_logs_returns_suffix (arg : option string) (w : world) :
  (exists pre,
     log_buffer w = (pre ++ response_logs (fst (api_logs arg w)))%list) \/
  (exists text pre,
     log_file w = Some text /\
     Py.readlines text = (pre ++ response_logs (fst (api_logs arg w)))%list).
Proof.
  rewrite api_logs_eq. cbv zeta. rewrite response_logs_eq.
  assert (Hb : exists pre,
             log_buffer w
             = (pre ++ buffer_tail (log_buffer w)
                         (Z.min (args_get_int arg 100) MAX_LOG_LINES))%list).
  { unfold buffer_tail. destruct (log_buffer w) as [|x b]; cbn [is_empty].
    - exists []. reflexivity.
    - apply slice_from_neg_suffix. }
  destruct (is_empty _); [|left; exact Hb].
  destruct (log_file w) as [text|]; [|left; exact Hb].
  destruct (fs_fault w (OpenRead LOG_FILE)); [left; exact Hb|].
  right. exists text.
  destruct (slice_from_neg_suffix (Py.readlines text)
              (Z.min (args_get_int arg 100) MAX_LOG_LINES)) as [pre Hpre].
  exists pre. split; [reflexivity|exact Hpre].
Qed.

(** For a request of at least one line and a deque that is not empty,
    the response carries the last [min(lines, MAX_LOG_LINES, len)]
    lines of the deque, and the log file plays no part. *)
Theorem api_logs_recent_from_buffer (arg : option string) (w : world) :
  1 <= args_get_int arg 100 ->
  log_buffer w <> [] ->
  response_logs (fst (api_logs arg w))
  = last_n (Z.to_nat (Z.min (args_get_int arg 100)
                        (Z.min MAX_LOG_LINES (Z.of_nat (List.length (log_buffer w))))))
           (log_buffer w).
Proof.
  intros Hlines Hbuf. rewrite api_logs_eq. cbv zeta. rewrite response_logs_eq.
  rewrite buffer_tail_positive by assumption.
  destruct (last_n _ (log_buffer w)) as [|x l] eqn:E; [|reflexivity].
  exfalso. apply (f_equal (@List.length string)) in E.
  rewrite last_n_length in E. cbn in E.
  destruct (log_buffer w) as [|y b]; [congruence|].
  cbn [List.length] in E. unfold MAX_LOG_LINES in E. lia.
Qed.

Lemma api_logs_recent_from_buffer_witness :
  response_logs (fst (api_logs (Some "1") w_two_lines))
  = last_n (Z.to_nat (Z.min (args_get_int (Some "1") 100)
                        (Z.min MAX_LOG_LINES
                           (Z.of_nat (List.length (log_buffer w_two_lines))))))
           (log_buffer w_two_lines).
Proof.
  apply (api_logs_recent_from_buffer (Some "1") w_two_lines).
  - discriminate.
  - discriminate.
Defined.

(** With an empty deque [api_logs] falls back to the log file: for a
    request of at least one line it returns the last
    [min(lines, MAX_LOG_LINES)] lines of the file when the file exists
    and can be read, and no line otherwise; [total_lines] is 0 in both
    cases, since it counts the deque only. *)
Theorem api_logs_falls_back_to_file (arg : option string) (w : world) :
  1 <= args_get_int arg 100 ->
  log_buffer w = [] ->
  response_total_lines (fst (api_logs arg w)) = Py.VInt 0 /\
  (forall text,
     log_file w = Some text -> fs_fault w (OpenRead LOG_FILE) = None ->
     response_logs (fst (api_logs arg w))
     = last_n (Z.to_nat (Z.min (args_get_int arg 100) MAX_LOG_LINES))
              (Py.readlines text)) /\
  (log_file w = None \/ fs_fault w (OpenRead LOG_FILE) <> None ->
   response_logs (fst (api_logs arg w)) = []).
Proof.
  intros Hlines Hbuf. rewrite api_logs_eq. cbv zeta.
  rewrite response_logs_eq, response_total_lines_eq by reflexivity.
  rewrite Hbuf. cbn [buffer_tail is_empty List.length].
  refine (conj eq_refl (conj _ _)).
  - intros text -> ->. apply slice_from_neg_positive.
    unfold MAX_LOG_LINES. lia.
  - intros [-> | Hf]; [reflexivity|].
    destruct (log_file w); [|reflexivity].
    destruct (fs_fault w (OpenRead LOG_FILE)); [reflexivity|congruence].
Qed.

Lemma api_logs_falls_back_to_file_witness :
  response_total_lines (fst (api_logs None w_restarted)) = Py.VInt 0 /\
  List.length (response_logs (fst (api_logs None w_restarted))) = 100%nat /\
  response_logs (fst (api_logs None w_idle)) = [].
Proof.
  refine (conj _ (conj _ _)).
  - apply (api_logs_falls_back_to_file None w_restarted); [discriminate|reflexivity].
  - rewrite (proj1 (proj2 (api_logs_falls_back_to_file None w_restarted
                             ltac:(discriminate) eq_refl)) _ eq_refl eq_refl).
    vm_compute. reflexivity.
  - apply (api_logs_falls_back_to_file None w_idle); [discriminate|reflexivity|].
    left. reflexivity.
Defined.

(** ** Further properties of the build thread *)

Lemma append_empty_r (s : string) : (s ++ EmptyString)%string = s.
Proof. induction s as [|c r IH]; cbn; [reflexivity|]. rewrite IH. reflexivity. Qed.

Lemma append_assoc (a b c : string) : ((a ++ b) ++ c = a ++ (b ++ c))%string.
Proof. induction a as [|x r IH]; cbn; [reflexivity|]. rewrite IH. reflexivity. Qed.

Lemma is_line_nonempty (l : string) : is_line l = true -> l <> EmptyString.
Proof. destruct l; [discriminate|discriminate]. Qed.

Lemma readlines_from_line (l cur rest : string) :
  is_line l = true ->
  Py.readlines_from cur (l ++ rest)
  = (cur ++ l)%string :: Py.readlines_from EmptyString rest.
Proof.
  revert cur. induction l as [|c r IH]; intros cur H; [discriminate H|].
  cbn [is_line] in H. cbn [String.append Py.readlines_from].
  destruct (Ascii.eqb_spec c "010") as [->|Hlf].
  - apply String.eqb_eq in H. subst r. reflexivity.
  - destruct (Ascii.eqb c "013"); [discriminate H|].
    rewrite (IH _ H). rewrite append_assoc. reflexivity.
Qed.

Lemma readlines_lines (ls : list string) :
  forallb is_line ls = true ->
  Py.readlines (fold_right String.append EmptyString ls) = ls.
Proof.
  unfold Py.readlines. induction ls as [|l ls IH]; cbn [forallb fold_right].
  - reflexivity.
  - intros H. apply andb_prop in H. destruct H as [Hl Hls].
    rewrite readlines_from_line by assumption. rewrite (IH Hls). reflexivity.
Qed.

Lemma fold_left_append (ls : list string) (s : string) :
  fold_left String.append ls s
  = (s ++ fold_right String.append EmptyString ls)%string.
Proof.
  revert s. induction ls as [|l ls IH]; intros s; cbn [fold_left fold_right].
  - rewrite append_empty_r. reflexivity.
  - rewrite IH, append_assoc. reflexivity.
Qed.

Lemma consumed_log_file (pre : list string) (w : world) :
  log_file (fold_left (fun w l => consume l w) pre w)
  = match pre with
    | [] => log_file w
    | _ => Some (fold_left String.append pre (log_text w))
    end.
Proof.
  revert w. induction pre as [|l pre IH]; intros w; [reflexivity|].
  cbn [fold_left]. rewrite IH.
  destruct pre; reflexivity.
Qed.

Lemma forallb_is_line_nonempty (ls : list string) :
  forallb is_line ls = true -> Forall (fun l => l <> EmptyString) ls.
Proof.
  induction ls as [|l ls IH]; cbn [forallb]; intros H; constructor;
    apply andb_prop in H; destruct H as [Hl Hls].
  - exact (is_line_nonempty l Hl).
  - exact (IH Hls).
Qed.

Lemma run_build_async_printing_log_file (w : world) (lines : list string) (rc : Z) :
  Forall (fun l => l <> EmptyString) lines ->
  log_file (snd (run_build_async (printing lines rc) w))
  = match lines with
    | [] => log_file w
    | _ => Some (fold_left String.append lines (log_text w))
    end.
Proof.
  intros Hlines.
  unfold printing, run_build_async, bind, try_except, log_buffer_clear,
    datetime_now, Popen, log_buffer_append.
  cbn [stdout returncode].
  rewrite <- (app_nil_r (map _ lines)).
  rewrite stream_output_lines by assumption.
  cbn [stream_output ret].
  destruct (rc =? 0); unfold log_buffer_append;
    cbn [fst snd log_file set_log_buffer];
    rewrite consumed_log_file; reflexivity.
Qed.

(** The durable log mirrors the child and nothing else: after a run in
    which every write succeeds, started without a log file, the lines
    of the log file are exactly the lines the child printed, in order;
    the start and completion markers are not among them. *)
Theorem run_build_async_log_file_round_trip
    (w : world) (lines : list string) (rc : Z) :
  forallb is_line lines = true ->
  log_file w = None ->
  log_file_lines (snd (run_build_async (printing lines rc) w)) = lines.
Proof.
  intros Hlines Hnone. unfold log_file_lines.
  rewrite run_build_async_printing_log_file
    by (apply forallb_is_line_nonempty; assumption).
  destruct lines as [|l ls]; [rewrite Hnone; reflexivity|].
  unfold log_text. rewrite Hnone, fold_left_append.
  cbn [String.append]. apply readlines_lines. assumption.
Qed.

Lemma run_build_async_log_file_round_trip_witness :
  log_file_lines
    (snd (run_build_async (printing [("a" ++ nl)%string; ("b" ++ nl)%string] 3) w_idle))
  = [("a" ++ nl)%string; ("b" ++ nl)%string].
Proof.
  apply (run_build_async_log_file_round_trip w_idle); reflexivity.
Defined.

Lemma last_deque_append (m : Z) (x dflt : string) (d : list string) :
  0 < m -> last (deque_append m x d) dflt = x.
Proof.
  intros Hm. unfold deque_append.
  destruct (m <? Z.of_nat (List.length (d ++ [x])%list)) eqn:E.
  - destruct d as [|y d].
    + apply Z.ltb_lt in E. cbn in E. lia.
    + cbn [app tl]. apply last_last.
  - apply last_last.
Qed.

(** What the streaming loop gives back and what it leaves alone. *)
Lemma stream_output_outcome (events : list read_event) (w : world) :
  fst (stream_output events w)
  = match first_fault events with
    | Some e => Py.Raise e
    | None => Py.Return tt
    end /\
  now (snd (stream_output events w)) = now w /\
  lock_file (snd (stream_output events w)) = lock_file w /\
  delivered (snd (stream_output events w)) = delivered w /\
  build_threads (snd (stream_output events w)) = build_threads w /\
  children (snd (stream_output events w)) = children w /\
  (within_bound w -> within_bound (snd (stream_output events w))).
Proof.
  revert w. induction events as [|ev events IH]; intros w.
  - cbn. intuition.
  - destruct ev as [line [e|]|e]; cbn [stream_output first_fault].
    + destruct (String.eqb line EmptyString) eqn:El; [cbn; intuition|].
      unfold truthy. rewrite El. cbn [negb].
      unfold bind, log_buffer_append, append_text. cbn [fst snd].
      repeat split; try reflexivity.
      intros H. apply (log_buffer_append_bounded line w H).
    + destruct (String.eqb line EmptyString) eqn:El; [cbn; intuition|].
      unfold truthy. rewrite El. cbn [negb].
      unfold bind, log_buffer_append, append_text. cbn [fst snd].
      match goal with
      | |- context [stream_output events ?w0] =>
          destruct (IH w0) as (H1 & H2 & H3 & H4 & H5 & H6 & H7);
          destruct (stream_output events w0) as [o w']
      end.
      cbn [fst snd] in *.
      destruct o; repeat split; try assumption;
        intros H; apply H7; apply (log_buffer_append_bounded line w H).
    + cbn. intuition.
Qed.

(** The build thread never raises, whatever the child does: failures to
    spawn, to read and to write end up in the log. *)
Theorem run_build_async_never_raises (p : popen) (w : world) :
  fst (run_build_async p w) = Py.Return tt.
Proof.
  unfold run_build_async, bind, try_except, log_buffer_clear, datetime_now,
    Popen, log_buffer_append.
  destruct p as [e|c]; [reflexivity|].
  destruct (stream_output (stdout c) _) as [[[]|e] w']; [|reflexivity].
  destruct (returncode c =? 0); reflexivity.
Qed.

(** Every run of the build thread ends the log with one terminal
    marker: the error marker of the first failure to spawn, read or
    write, if there is one; otherwise the success marker for exit code
    0 and the failure marker with the exit code for any other. *)
Theorem run_build_async_ends_with_marker (p : popen) (w : world) :
  last (log_buffer (snd (run_build_async p w))) EmptyString
  = match build_fault p with
    | Some e => error_marker (now w) e
    | None =>
        if exit_code p =? 0 then success_marker (now w)
        else failure_marker (now w) (exit_code p)
    end.
Proof.
  unfold run_build_async, bind, try_except, log_buffer_clear, datetime_now,
    Popen, log_buffer_append.
  destruct p as [e|c]; cbn [build_fault exit_code].
  - reflexivity.
  - cbn [stdout returncode].
    match goal with
    | |- context [stream_output (stdout c) ?w0] =>
        destruct (stream_output_outcome (stdout c) w0) as (Hout & Hnow & _);
        destruct (stream_output (stdout c) w0) as [o w']
    end.
    cbn [fst snd] in Hout, Hnow. cbn [now set_log_buffer add_child] in Hnow.
    destruct (first_fault (stdout c)) as [e|]; subst o.
    + cbn [Py.is_Exception snd log_buffer set_log_buffer]. rewrite Hnow.
      apply last_deque_append. reflexivity.
    + destruct (returncode c =? 0);
        cbn [snd log_buffer set_log_buffer]; rewrite Hnow;
        apply last_deque_append; reflexivity.
Qed.

(** When the child cannot be spawned, the log holds the start marker
    and the error marker with the failure's message, and nothing else
    has changed: no child, no log file written. *)
Lemma run_build_async_spawn_failure (e : Py.exn) (w : world) :
  run_build_async (SpawnFails e) w
  = (Py.Return tt,
     set_log_buffer [start_marker (now w); error_marker (now w) e] w).
Proof. reflexivity. Qed.

Lemma run_build_async_completes_witness :
  log_buffer (snd (run_build_async (printing [("a" ++ nl)%string] 3) w_idle))
  = buffer_of (start_marker (now w_idle) :: [("a" ++ nl)%string]
               ++ [if 3 =? 0 then success_marker (now w_idle)
                   else failure_marker (now w_idle) 3])%list.
Proof.
  apply (run_build_async_completes w_idle [("a" ++ nl)%string] 3).
  repeat constructor. discriminate.
Defined.

(** ** Further properties of the request handlers *)

(** The three ways [api_build] can end. *)
Lemma api_build_cases (w : world) :
  (exists r, api_build w = (Py.Return r, w) /\ status_code r = 409 /\
             exists pid, probe w = running_status pid \/ probe w = stale_status pid) \/
  (exists e, api_build w = (Py.Raise e, w) /\
             log_file w <> None /\ fs_fault w (Unlink LOG_FILE) = Some e) \/
  (exists r, api_build w = (Py.Return r, add_thread (set_file LOG_FILE None w)) /\
             status_code r = 200).
Proof.
  unfold api_build, bind. rewrite get_build_status_probe.
  destruct (probe_cases w) as [E | [[pid E] | [[pid E] | [msg E]]]]; rewrite E.
  - run. destruct (log_file w) eqn:Hl; settle.
    + destruct (fs_fault w (Unlink LOG_FILE)) eqn:Hf; settle.
      * right. left. eexists. repeat split. discriminate.
      * right. right. eexists. split; reflexivity.
    + right. right.
      exists (mkResponse [("success", Py.VBool true);
                          ("message", Py.VStr "Build started successfully")] 200).
      split; [|reflexivity].
      f_equal. destruct w; cbn in *; subst; reflexivity.
  - left. cbn. eexists. repeat split. eauto.
  - left. cbn. eexists. repeat split. eauto.
  - run. destruct (log_file w) eqn:Hl; settle.
    + destruct (fs_fault w (Unlink LOG_FILE)) eqn:Hf; settle.
      * right. left. eexists. repeat split. discriminate.
      * right. right. eexists. split; reflexivity.
    + right. right.
      exists (mkResponse [("success", Py.VBool true);
                          ("message", Py.VStr "Build started successfully")] 200).
      split; [|reflexivity].
      f_equal. destruct w; cbn in *; subst; reflexivity.
Qed.

(** [api_build] never touches the marker, the deque or the journal of
    signals, and never spawns a child itself; it starts a build thread
    exactly when it answers 200, and then the old log file is gone;
    otherwise it changes nothing at all. *)
Theorem api_build_effects (w : world) :
  lock_file (snd (api_build w)) = lock_file w /\
  log_buffer (snd (api_build w)) = log_buffer w /\
  delivered (snd (api_build w)) = delivered w /\
  children (snd (api_build w)) = children w /\
  ((exists r, fst (api_build w) = Py.Return r /\ status_code r = 200) ->
   build_threads (snd (api_build w)) = S (build_threads w) /\
   log_file (snd (api_build w)) = None) /\
  (~ (exists r, fst (api_build w) = Py.Return r /\ status_code r = 200) ->
   snd (api_build w) = w).
Proof.
  destruct (api_build_cases w)
    as [(r & E & Hc & _) | [(e & E & _) | (r & E & Hc)]]; rewrite E; cbn [fst snd].
  - refine (conj eq_refl (conj eq_refl (conj eq_refl (conj eq_refl (conj _ _))))).
    + intros (r' & Hr & Hr'). congruence.
    + reflexivity.
  - refine (conj eq_refl (conj eq_refl (conj eq_refl (conj eq_refl (conj _ _))))).
    + intros (r' & Hr & _). discriminate Hr.
    + reflexivity.
  - refine (conj eq_refl (conj eq_refl (conj eq_refl (conj eq_refl (conj _ _))))).
    + intros _. split; reflexivity.
    + intros H. exfalso. apply H. eauto.
Qed.

Lemma api_build_effects_witness :
  build_threads (snd (api_build w_idle)) = S (build_threads w_idle) /\
  snd (api_build w_running) = w_running.
Proof.
  split.
  - apply (proj1 (proj2 (proj2 (proj2 (proj2 (api_build_effects w_idle)))))).
    eexists. split; reflexivity.
  - apply (proj2 (proj2 (proj2 (proj2 (proj2 (api_build_effects w_running)))))).
    intros (r & [= <-] & Hr). discriminate Hr.
Defined.

(** Starting from idle: when no marker exists and the old log file, if
    any, can be unlinked, [api_build] answers 200 with [success] true,
    removes the old log file and starts one build thread. *)
Lemma api_build_idle_eq (w : world) :
  lock_file w = None ->
  log_file w = None \/ fs_fault w (Unlink LOG_FILE) = None ->
  api_build w =
  (Py.Return (mkResponse [("success", Py.VBool true);
                          ("message", Py.VStr "Build started successfully")] 200),
   add_thread (set_file LOG_FILE None w)).
Proof.
  intros Hlock Hlog.
  unfold api_build, bind. rewrite get_build_status_probe, (probe_absent w Hlock).
  run. destruct Hlog as [Hnone | Hok].
  - settle. destruct w; cbn in *; subst; reflexivity.
  - destruct (log_file w) eqn:Hl; settle.
    + reflexivity.
    + destruct w; cbn in *; subst; reflexivity.
Qed.


(** The ways [api_stop_build] can end. *)
Lemma api_stop_build_cases (w : world) :
  (exists r, api_stop_build w = (Py.Return r, w) /\
             (status_code r = 409 \/ status_code r = 404 \/ status_code r = 500)) \/
  (exists r pid,
     probe w = running_status pid /\ status_code r = 200 /\
     api_stop_build w =
     (Py.Return r,
      set_log_buffer
        (deque_append MAX_LOG_LINES (stop_marker (now w) pid) (log_buffer w))
        (add_delivered pid 15 w))).
Proof.
  unfold api_stop_build, bind. rewrite get_build_status_probe.
  destruct (probe_cases w) as [E | [[pid E] | [[pid E] | [msg E]]]].
  - rewrite E. left. cbn. unfold ret. eexists. split; [reflexivity|left; reflexivity].
  - destruct (probe_running_inv w pid E) as (_ & Hrange & _).
    destruct (c_int_range pid Hrange) as [Hlo Hhi].
    rewrite E. run. settle.
    destruct (kill_errno w pid 15) as [n|] eqn:Hk; settle.
    + left. destruct n; cbn; unfold ret; eexists;
        (split; [reflexivity|]); cbn; auto.
    + right. exists (mkResponse
                       [("success", Py.VBool true);
                        ("message", Py.VStr ("Stop signal sent to build process (PID: "
                                             ++ Py.str_Z pid ++ ")"))] 200), pid.
      repeat split.
  - rewrite E. left. cbn. unfold ret. eexists. split; [reflexivity|left; reflexivity].
  - rewrite E. left. cbn. unfold ret. eexists. split; [reflexivity|left; reflexivity].
Qed.

(** [api_stop_build] never touches the files, the thread count or the
    child count.  It sends a signal exactly when it answers 200, and
    then it is the one signal 15 to the pid the probe gave; with any
    other outcome the world is unchanged. *)
Theorem api_stop_build_effects (w : world) :
  lock_file (snd (api_stop_build w)) = lock_file w /\
  log_file (snd (api_stop_build w)) = log_file w /\
  build_threads (snd (api_stop_build w)) = build_threads w /\
  children (snd (api_stop_build w)) = children w /\
  ((exists r, fst (api_stop_build w) = Py.Return r /\ status_code r = 200) ->
   exists pid,
     fst (get_build_status w) = Py.Return (running_status pid) /\
     delivered (snd (api_stop_build w)) = (delivered w ++ [(pid, 15)])%list) /\
  (~ (exists r, fst (api_stop_build w) = Py.Return r /\ status_code r = 200) ->
   snd (api_stop_build w) = w).
Proof.
  destruct (api_stop_build_cases w) as [(r & E & Hc) | (r & pid & Hp & Hc & E)];
    rewrite E; cbn [fst snd];
    refine (conj eq_refl (conj eq_refl (conj eq_refl (conj eq_refl (conj _ _))))).
  - intros (r' & [= <-] & Hr').
    destruct Hc as [Hc | [Hc | Hc]]; rewrite Hc in Hr'; discriminate Hr'.
  - reflexivity.
  - intros _. exists pid. rewrite get_build_status_probe, Hp. split; reflexivity.
  - intros H. exfalso. apply H. eauto.
Qed.

(** When the probe answers running and [kill(pid, 15)] fails with an
    error other than "no such process", [api_stop_build] answers 500
    with the error's text, sends nothing and changes nothing. *)
Theorem api_stop_build_other_failure (w : world) (pid : Z) (n : Py.errno) :
  fst (get_build_status w) = Py.Return (running_status pid) ->
  kill_errno w pid 15 = Some n ->
  n <> Py.ESRCH ->
  api_stop_build w =
  (Py.Return (mkResponse [("success", Py.VBool false);
                          ("message", Py.VStr ("Failed to stop build: "
                                               ++ Py.strerror n))] 500), w).
Proof.
  intros H Hkill Hn. apply probed_inv in H.
  destruct (probe_running_inv w pid H) as (_ & Hrange & _).
  destruct (c_int_range pid Hrange) as [Hlo Hhi].
  unfold api_stop_build, bind. rewrite get_build_status_probe, H.
  run. settle. destruct n; try reflexivity. congruence.
Qed.

Lemma api_stop_build_other_failure_witness :
  api_stop_build
    (with_kill (fun pid sig => if sig =? 0 then None else Some Py.EPERM) w_running) =
  (Py.Return (mkResponse [("success", Py.VBool false);
                          ("message", Py.VStr ("Failed to stop build: "
                                               ++ Py.strerror Py.EPERM))] 500),
   with_kill (fun pid sig => if sig =? 0 then None else Some Py.EPERM) w_running).
Proof.
  apply (api_stop_build_other_failure _ 4242 Py.EPERM).
  - reflexivity.
  - reflexivity.
  - discriminate.
Defined.

(** The ways [api_clear_lock] can end. *)
Lemma api_clear_lock_cases (w : world) :
  (exists r, api_clear_lock w = (Py.Return r, w) /\
             (status_code r = 409 \/ status_code r = 500) /\ lock_file w <> None) \/
  (api_clear_lock w =
   (Py.Return (mkResponse [("success", Py.VBool true);
                           ("message", Py.VStr "No lock file to clear")] 200), w) /\
   lock_file w = None) \/
  (api_clear_lock w =
   (Py.Return (mkResponse [("success", Py.VBool true);
                           ("message", Py.VStr "Lock file cleared successfully")] 200),
    set_file LOCK_FILE None w) /\
   lock_file w <> None).
Proof.
  destruct (probe_cases w) as [E | [[pid E] | [[pid E] | [msg E]]]].
  - right. left. assert (Hl := probe_idle_inv w E). split; [|assumption].
    unfold api_clear_lock, bind. rewrite get_build_status_probe, E.
    run. rewrite Hl. reflexivity.
  - left. unfold api_clear_lock, bind. rewrite get_build_status_probe, E.
    cbn. eexists. repeat split; [left; reflexivity|].
    destruct (probe_running_inv w pid E) as ((text & Hl & _) & _). congruence.
  - assert (Hl := probe_stale_inv w pid E).
    assert (Hun := api_clear_lock_unlink w). rewrite E in Hun.
    specialize (Hun ltac:(discriminate) Hl). rewrite Hun.
    destruct (fs_fault w (Unlink LOCK_FILE)).
    + left. eexists. repeat split; [right; reflexivity|assumption].
    + right. right. split; [reflexivity|assumption].
  - assert (Hl := probe_error_inv w msg E).
    assert (Hun := api_clear_lock_unlink w). rewrite E in Hun.
    specialize (Hun ltac:(discriminate) Hl). rewrite Hun.
    destruct (fs_fault w (Unlink LOCK_FILE)).
    + left. eexists. repeat split; [right; reflexivity|assumption].
    + right. right. split; [reflexivity|assumption].
Qed.

(** [api_clear_lock] touches nothing but the marker: the log file, the
    deque, the journal of signals and the thread and child counts stay.
    A response it gives has status 200 exactly when no marker exists
    after the call; with any other outcome the world is unchanged. *)
Theorem api_clear_lock_effects (w : world) :
  log_file (snd (api_clear_lock w)) = log_file w /\
  log_buffer (snd (api_clear_lock w)) = log_buffer w /\
  delivered (snd (api_clear_lock w)) = delivered w /\
  build_threads (snd (api_clear_lock w)) = build_threads w /\
  children (snd (api_clear_lock w)) = children w /\
  (forall r,
     fst (api_clear_lock w) = Py.Return r ->
     (status_code r = 200 <-> lock_file (snd (api_clear_lock w)) = None)) /\
  (~ (exists r, fst (api_clear_lock w) = Py.Return r /\ status_code r = 200) ->
   snd (api_clear_lock w) = w).
Proof.
  destruct (api_clear_lock_cases w) as [(r & E & Hc & Hl) | [(E & Hl) | (E & Hl)]];
    rewrite E; cbn [fst snd];
    refine (conj eq_refl (conj eq_refl (conj eq_refl (conj eq_refl
              (conj eq_refl (conj _ _)))))).
  - intros r' [= <-]. split; intros H; [|contradiction].
    destruct Hc as [Hc|Hc]; rewrite Hc in H; discriminate H.
  - reflexivity.
  - intros r' [= <-]. split; intros _; [assumption|reflexivity].
  - reflexivity.
  - intros r' [= <-]. split; reflexivity.
  - intros H. exfalso. apply H. eauto.
Qed.

Lemma api_clear_lock_effects_witness :
  snd (api_clear_lock w_running) = w_running /\
  lock_file (snd (api_clear_lock w_stale)) = None.
Proof.
  split.
  - apply (proj2 (proj2 (proj2 (proj2 (proj2 (proj2
             (api_clear_lock_effects w_running))))))).
    intros (r & [= <-] & Hr). discriminate Hr.
  - eapply (proj1 (proj2 (proj2 (proj2 (proj2 (proj2
              (api_clear_lock_effects w_stale)))))));
      reflexivity.
Defined.

(** Clearing twice is the same as clearing once: after a call that
    answered 200, a second call answers 200 with "No lock file to
    clear" and changes nothing. *)
Theorem api_clear_lock_idempotent (w : world) (r : response) :
  fst (api_clear_lock w) = Py.Return r ->
  status_code r = 200 ->
  api_clear_lock (snd (api_clear_lock w)) =
  (Py.Return (mkResponse [("success", Py.VBool true);
                          ("message", Py.VStr "No lock file to clear")] 200),
   snd (api_clear_lock w)).
Proof.
  intros Hr Hc.
  destruct (api_clear_lock_cases w) as [(r' & E & Hc' & _) | [(E & Hl) | (E & Hl)]];
    rewrite E in *; cbn [fst snd] in *.
  - injection Hr as <-. destruct Hc' as [Hc'|Hc']; congruence.
  - rewrite E. reflexivity.
  - destruct (api_clear_lock_cases (set_file LOCK_FILE None w))
      as [(r' & _ & _ & Hl') | [(E' & _) | (_ & Hl')]].
    + exfalso. apply Hl'. reflexivity.
    + exact E'.
    + exfalso. apply Hl'. reflexivity.
Qed.

Lemma api_clear_lock_idempotent_witness :
  api_clear_lock (snd (api_clear_lock w_stale)) =
  (Py.Return (mkResponse [("success", Py.VBool true);
                          ("message", Py.VStr "No lock file to clear")] 200),
   snd (api_clear_lock w_stale)).
Proof.
  apply (api_clear_lock_idempotent w_stale
           (mkResponse [("success", Py.VBool true);
                        ("message", Py.VStr "Lock file cleared successfully")] 200));
    reflexivity.
Defined.

(** A stale lock blocks new builds until it is cleared: with a stale
    marker that can be unlinked, [api_build] answers 409 and starts
    nothing; after [api_clear_lock], [api_build] answers 200 and starts
    a build thread (the old log file, if any, being unlinkable). *)
Theorem stale_lock_blocks_until_cleared (w : world) (pid : Z) :
  fst (get_build_status w) = Py.Return (stale_status pid) ->
  fs_fault w (Unlink LOCK_FILE) = None ->
  log_file w = None \/ fs_fault w (Unlink LOG_FILE) = None ->
  (exists r, api_build w = (Py.Return r, w) /\ status_code r = 409) /\
  api_build (snd (api_clear_lock w)) =
  (Py.Return (mkResponse [("success", Py.VBool true);
                          ("message", Py.VStr "Build started successfully")] 200),
   add_thread (set_file LOG_FILE None (set_file LOCK_FILE None w))).
Proof.
  intros H Hlock Hlog. apply probed_inv in H. split.
  - unfold api_build, bind. rewrite get_build_status_probe, H. cbn.
    eexists. split; reflexivity.
  - assert (Hun := api_clear_lock_unlink w). rewrite H, Hlock in Hun.
    rewrite Hun by (discriminate || exact (probe_stale_inv w pid H)).
    cbn [snd]. apply api_build_idle_eq; [reflexivity|exact Hlog].
Qed.

Lemma stale_lock_blocks_until_cleared_witness :
  api_build (snd (api_clear_lock w_stale)) =
  (Py.Return (mkResponse [("success", Py.VBool true);
                          ("message", Py.VStr "Build started successfully")] 200),
   add_thread (set_file LOG_FILE None (set_file LOCK_FILE None w_stale))).
Proof.
  apply (stale_lock_blocks_until_cleared w_stale 99999999).
  - reflexivity.
  - reflexivity.
  - left. reflexivity.
Defined.

Lemma api_stop_build_effects_witness :
  snd (api_stop_build w_vanishing) = w_vanishing /\
  exists pid,
    fst (get_build_status w_running) = Py.Return (running_status pid) /\
    delivered (snd (api_stop_build w_running)) = (delivered w_running ++ [(pid, 15)])%list.
Proof.
  split.
  - apply (proj2 (proj2 (proj2 (proj2 (proj2 (api_stop_build_effects w_vanishing)))))).
    intros (r & [= <-] & Hr). discriminate Hr.
  - apply (proj1 (proj2 (proj2 (proj2 (proj2 (api_stop_build_effects w_running)))))).
    eexists. split; reflexivity.
Defined.

Lemma run_build_async_bounded (p : popen) (w : world) :
  within_bound (snd (run_build_async p w)).
Proof.
  unfold run_build_async, bind, try_except, log_buffer_clear, datetime_now, Popen.
  assert (H0 : within_bound
                 (snd (log_buffer_append (start_marker (now (set_log_buffer [] w)))
                         (set_log_buffer [] w)))).
  { apply log_buffer_append_bounded. cbn. lia. }
  destruct (log_buffer_append _ (set_log_buffer [] w)) as [[[]|e0] w0] eqn:E0;
    cbn [snd] in H0; [|discriminate E0].
  destruct p as [e|c].
  - cbn [Py.is_Exception snd]. apply log_buffer_append_bounded. exact H0.
  - cbn [stdout returncode].
    destruct (stream_output_outcome (stdout c) (add_child w0)) as (_ & _ & _ & _ & _ & _ & Hb).
    specialize (Hb H0).
    destruct (stream_output (stdout c) (add_child w0)) as [[[]|e] w1]; cbn [snd] in Hb.
    + destruct (returncode c =? 0);
        match goal with
        | |- within_bound (snd (let (_, _) := log_buffer_append ?m ?x in _)) =>
            assert (H1 := log_buffer_append_bounded m x Hb);
            destruct (log_buffer_append m x) as [[[]|e1] w2] eqn:E1;
            [exact H1 | discriminate E1]
        end.
    + cbn [Py.is_Exception]. apply log_buffer_append_bounded. exact Hb.
Qed.

(** The deque never grows beyond [MAX_LOG_LINES] lines: every handler
    and the build thread keep that bound. *)
Theorem log_buffer_stays_bounded (w : world) :
  within_bound w ->
  (forall arg, within_bound (snd (api_logs arg w))) /\
  within_bound (snd (api_build w)) /\
  within_bound (snd (api_stop_build w)) /\
  within_bound (snd (api_clear_lock w)) /\
  (forall p, within_bound (snd (run_build_async p w))).
Proof.
  intros H. refine (conj _ (conj _ (conj _ (conj _ _)))).
  - intros arg. rewrite api_logs_eq. exact H.
  - destruct (api_build_cases w)
      as [(r & E & _) | [(e & E & _) | (r & E & _)]]; rewrite E; exact H.
  - destruct (api_stop_build_cases w) as [(r & E & _) | (r & pid & _ & _ & E)];
      rewrite E; cbn [snd]; [exact H|].
    apply (log_buffer_append_bounded (stop_marker (now w) pid) (add_delivered pid 15 w)).
    exact H.
  - destruct (api_clear_lock_cases w) as [(r & E & _) | [(E & _) | (E & _)]];
      rewrite E; exact H.
  - intros p. apply run_build_async_bounded.
Qed.

Lemma log_buffer_stays_bounded_witness :
  within_bound (snd (api_stop_build w_running)).
Proof.
  apply (log_buffer_stays_bounded w_running).
  unfold within_bound. cbn. lia.
Defined.

(** ** The status page *)

Lemma float_of_int_exact (n : Z) :
  Z.abs n < 2 ^ 53 -> float_of_int n = Py.Return (mkFloat n 0).
Proof.
  intros H. unfold float_of_int.
  destruct (Z.abs n =? 0) eqn:E0; [reflexivity|].
  apply Z.eqb_neq in E0.
  assert (Hl : Z.log2 (Z.abs n) < 53) by (apply Z.log2_lt_pow2; lia).
  destruct (Z.log2 (Z.abs n) + 1 <=? 53) eqn:E; [reflexivity|].
  apply Z.leb_gt in E. lia.
Qed.

Lemma round_half_even_accurate (t d : Z) :
  0 < d -> 2 * Z.abs (t - round_half_even t d * d) <= d.
Proof.
  intros Hd. unfold round_half_even.
  assert (Hdm := Z.div_mod t d ltac:(lia)).
  assert (Hr := Z.mod_pos_bound t d Hd).
  destruct ((d <? 2 * (t mod d)) || ((2 * (t mod d) =? d) && Z.odd (t / d)))%bool eqn:E.
  - apply orb_prop in E. destruct E as [E|E].
    + apply Z.ltb_lt in E. nia.
    + apply andb_prop in E. destruct E as [E _]. apply Z.eqb_eq in E. nia.
  - apply orb_false_elim in E. destruct E as [E _]. apply Z.ltb_ge in E. nia.
Qed.

Lemma round_half_even_bounds (t d lo hi : Z) :
  0 < d -> lo * d <= t -> t <= hi * d ->
  lo <= round_half_even t d <= hi.
Proof.
  intros Hd Hlo Hhi. unfold round_half_even.
  assert (Hdm := Z.div_mod t d ltac:(lia)).
  assert (Hr := Z.mod_pos_bound t d Hd).
  destruct ((d <? 2 * (t mod d)) || ((2 * (t mod d) =? d) && Z.odd (t / d)))%bool eqn:E.
  - assert (0 < t mod d).
    { apply orb_prop in E. destruct E as [E|E].
      - apply Z.ltb_lt in E. lia.
      - apply andb_prop in E. destruct E as [E _]. apply Z.eqb_eq in E. lia. }
    nia.
  - nia.
Qed.

Lemma round_half_even_1 (t : Z) : round_half_even t 1 = t.
Proof.
  unfold round_half_even. rewrite Z.div_1_r, Z.mod_1_r. reflexivity.
Qed.

Lemma format_2f_float_nonneg (n e : Z) :
  0 <= n -> e <= 0 ->
  format_2f_float (mkFloat n e) = decimal_2 (round_half_even (100 * n) (2 ^ (- e))).
Proof.
  intros Hn He. unfold format_2f_float, hundredths. cbn [mant expo].
  destruct (n <? 0) eqn:E; [apply Z.ltb_lt in E; lia|].
  rewrite Z.abs_eq by assumption. cbn [String.append].
  destruct (0 <=? e) eqn:E0.
  - apply Z.leb_le in E0. replace e with 0 by lia.
    rewrite Z.shiftl_0_r. cbn [Z.opp]. change (2 ^ 0) with 1.
    rewrite round_half_even_1. reflexivity.
  - rewrite Z.shiftl_1_l. reflexivity.
Qed.

(** [format_size] for a size below 2^53 bytes: the unit is B below 1024,
    then KB, MB, GB for each further factor of 1024 and TB from 1024^4
    on; the number shown is the size divided by the unit's power of
    1024, in hundredths rounded to nearest (ties to even), so it is off
    by at most half a hundredth; from KB on it is at least 1.00, and up
    to GB it is at most 1024.00. *)
Theorem format_size_accurate (n : Z) :
  0 <= n < 2 ^ 53 ->
  format_size (JInt n)
  = Py.Return
      (decimal_2 (round_half_even (100 * n) (1024 ^ Z.of_nat (unit_index n)))
       ++ " " ++ unit_name (unit_index n)) /\
  2 * Z.abs (100 * n
             - round_half_even (100 * n) (1024 ^ Z.of_nat (unit_index n))
               * 1024 ^ Z.of_nat (unit_index n))
  <= 1024 ^ Z.of_nat (unit_index n) /\
  (1024 <= n -> 100 <= round_half_even (100 * n) (1024 ^ Z.of_nat (unit_index n))) /\
  (n < 1024 ^ 4 ->
   round_half_even (100 * n) (1024 ^ Z.of_nat (unit_index n)) <= 102400).
Proof.
  intros Hn.
  assert (Hf : float_of_int n = Py.Return (mkFloat n 0))
    by (apply float_of_int_exact; lia).
  split; [|split; [|split]].
  - unfold format_size, unit_index. cbn [format_loop lt_1024 format_2f div_1024].
    rewrite Hf.
    cbn -[Z.ltb Z.pow format_2f_float Z.shiftl round_half_even decimal_2
          String.append unit_name].
    change (Z.shiftl 1024 10) with (1024 ^ 2).
    change (Z.shiftl 1024 20) with (1024 ^ 3).
    change (Z.shiftl 1024 30) with (1024 ^ 4).
    destruct (n <? 1024); [|destruct (n <? 1024 ^ 2); [|destruct (n <? 1024 ^ 3);
      [|destruct (n <? 1024 ^ 4)]]];
      rewrite format_2f_float_nonneg by lia; reflexivity.
  - apply round_half_even_accurate. apply Z.pow_pos_nonneg; lia.
  - intros H. unfold unit_index.
    destruct (n <? 1024) eqn:E1; [apply Z.ltb_lt in E1; lia|].
    destruct (n <? 1024 ^ 2) eqn:E2; [|destruct (n <? 1024 ^ 3) eqn:E3;
      [|destruct (n <? 1024 ^ 4) eqn:E4]];
      (apply round_half_even_bounds with (hi := 100 * 2 ^ 53);
       [reflexivity | | ]);
      rewrite ?Z.ltb_lt, ?Z.ltb_ge in *; cbn [Z.of_nat Pos.of_succ_nat Pos.succ] in *; lia.
  - intros H. unfold unit_index.
    destruct (n <? 1024) eqn:E1; [|destruct (n <? 1024 ^ 2) eqn:E2;
      [|destruct (n <? 1024 ^ 3) eqn:E3; [|destruct (n <? 1024 ^ 4) eqn:E4]]];
      rewrite ?Z.ltb_lt, ?Z.ltb_ge in *; try lia;
      (apply round_half_even_bounds with (lo := 0); [reflexivity | | ]);
      cbn [Z.of_nat Pos.of_succ_nat Pos.succ] in *; lia.
Qed.

Lemma format_size_accurate_witness :
  format_size (JInt 1536) = Py.Return "1.50 KB".
Proof.
  rewrite (proj1 (format_size_accurate 1536 ltac:(split; [discriminate|reflexivity]))).
  reflexivity.
Defined.

Lemma float_of_int_total (n : Z) :
  Z.abs n < 2 ^ 1023 -> exists x, float_of_int n = Py.Return x.
Proof.
  intros H. unfold float_of_int.
  destruct (Z.abs n =? 0) eqn:E0; [eexists; reflexivity|].
  apply Z.eqb_neq in E0.
  assert (Ha : 0 < Z.abs n) by lia.
  destruct (Z.log2 (Z.abs n) + 1 <=? 53) eqn:E; [eexists; reflexivity|].
  apply Z.leb_gt in E.
  assert (Hl : Z.log2 (Z.abs n) < 1023) by (apply Z.log2_lt_pow2; assumption).
  destruct (Z.log2_spec (Z.abs n) Ha) as [_ Hup].
  set (e := Z.log2 (Z.abs n) + 1 - 53) in *.
  assert (He : 0 < e) by (unfold e; lia).
  assert (Hpe : 0 < 2 ^ e) by (apply Z.pow_pos_nonneg; lia).
  assert (Hsplit : 2 ^ Z.succ (Z.log2 (Z.abs n)) = 2 ^ 53 * 2 ^ e).
  { rewrite <- Z.pow_add_r by lia. f_equal. unfold e. lia. }
  assert (Hq : Z.shiftr (Z.abs n) e < 2 ^ 53).
  { rewrite Z.shiftr_div_pow2 by lia.
    apply Z.div_lt_upper_bound; [assumption|]. lia. }
  assert (Hq0 : 0 <= Z.shiftr (Z.abs n) e) by (apply Z.shiftr_nonneg; lia).
  assert (Hmax : 2 ^ Z.succ (Z.log2 (Z.abs n)) <= 2 ^ 1023)
    by (apply Z.pow_le_mono_r; lia).
  match goal with
  | |- context [2 ^ 1024 <=? Z.shiftl ?q' e] =>
      assert (Hq' : 0 <= q' <= 2 ^ 53)
        by (destruct (_ || _)%bool; lia);
      destruct (2 ^ 1024 <=? Z.shiftl q' e) eqn:Eo; [|eauto];
      apply Z.leb_le in Eo; rewrite Z.shiftl_mul_pow2 in Eo by lia;
      assert (q' * 2 ^ e <= 2 ^ 53 * 2 ^ e) by nia
  end.
  assert (2 ^ 1023 < 2 ^ 1024) by (apply Z.pow_lt_mono_r; lia).
  lia.
Qed.

Lemma has_space_app (a b : string) : has_space (a ++ String " " b) = true.
Proof.
  induction a as [|c r IH]; cbn [String.append has_space]; [reflexivity|].
  rewrite IH. apply orb_true_r.
Qed.

(** Whatever [format_size] returns for an integer holds a space. *)
Lemma format_loop_returns_space (units : list string) (v : number) (s : string) :
  format_loop units v = Py.Return s -> has_space s = true.
Proof.
  revert v. induction units as [|u units IH]; intros v; cbn [format_loop].
  - destruct (format_2f v); intros [= <-]. apply (has_space_app _ "TB").
  - destruct (lt_1024 v).
    + destruct (format_2f v); intros [= <-]. apply has_space_app.
    + destruct (div_1024 v); [apply IH|discriminate].
Qed.

Lemma format_loop_float_total (units : list string) (x : float) :
  exists s, format_loop units (Float x) = Py.Return s.
Proof.
  revert x. induction units as [|u units IH]; intros x; cbn [format_loop format_2f].
  - eauto.
  - destruct (lt_1024 (Float x)); [eauto|]. cbn [div_1024]. apply IH.
Qed.

Lemma format_size_int_total (n : Z) :
  Z.abs n < 2 ^ 1023 -> exists s, format_size (JInt n) = Py.Return s.
Proof.
  intros H. destruct (float_of_int_total n H) as [x Hx].
  unfold format_size. cbn [format_loop format_2f div_1024 lt_1024]. rewrite Hx.
  destruct (n <? 1024); [eexists; reflexivity|].
  exact (format_loop_float_total ["KB"; "MB"; "GB"]
           (mkFloat (mant x) (expo x - 10))).
Qed.

(** [format_size] answers "N/A" for [None] and for nothing else, and
    it answers, without raising, for every integer below 2^1023 in
    absolute value. *)
Theorem format_size_not_available (size_bytes : json) :
  (format_size size_bytes = Py.Return "N/A" <-> size_bytes = JNone) /\
  (forall n, size_bytes = JInt n -> Z.abs n < 2 ^ 1023 ->
             exists s, format_size size_bytes = Py.Return s).
Proof.
  split.
  - split; [|intros ->; reflexivity].
    destruct size_bytes as [|b|n|s|l|d]; try discriminate; [reflexivity|].
    intros H. apply format_loop_returns_space in H. discriminate H.
  - intros n -> H. apply format_size_int_total. exact H.
Qed.

Lemma format_size_not_available_witness :
  exists s, format_size (JInt (2 ^ 63 - 1)) = Py.Return s.
Proof.
  apply (proj2 (format_size_not_available (JInt (2 ^ 63 - 1))) (2 ^ 63 - 1) eq_refl).
  reflexivity.
Defined.

Lemma jdict_get_set_other (k k' : string) (v : json) (d : jdict) :
  k <> k' -> jdict_get (jdict_set k v d) k' = jdict_get d k'.
Proof.
  intros Hk. induction d as [|[k0 v0] d IH]; cbn [jdict_set jdict_get].
  - destruct (String.eqb_spec k' k); [congruence|reflexivity].
  - destruct (String.eqb_spec k k0) as [->|Hk0]; cbn [jdict_get].
    + destruct (String.eqb_spec k' k0); [congruence|reflexivity].
    + rewrite IH. reflexivity.
Qed.

Lemma jdict_get_set_same (k : string) (v : json) (d : jdict) :
  jdict_get (jdict_set k v d) k = Some v.
Proof.
  induction d as [|[k0 v0] d IH]; cbn [jdict_set jdict_get].
  - rewrite String.eqb_refl. reflexivity.
  - destruct (String.eqb_spec k k0) as [->|Hk0]; cbn [jdict_get].
    + rewrite String.eqb_refl. reflexivity.
    + destruct (String.eqb_spec k k0); [congruence|exact IH].
Qed.

(** Unfolds [get_db_info] at an output directory given by its answers. *)
Ltac run_db_info :=
  unfold get_db_info, bind, lift, ret, try_except;
  cbn [answers_exists answers_stat db_file db_tar metadata_exists metadata_load
       st_size st_mtime_iso fst snd Py.is_Exception].

Lemma get_db_info_frame (o : output_dir) (w : world) :
  snd (get_db_info o w) = w.
Proof.
  destruct o as [[[[|]|] [[size_db [t|]]|]] [[[|]|] [[size_tar t_tar]|]] [[|]|] [j|]];
    reflexivity.
Qed.

(** What a dictionary returned by [get_db_info] holds. *)
Lemma get_db_info_fields (o : output_dir) (w : world) (info : jdict) :
  fst (get_db_info o w) = Py.Return info ->
  exists db_exists tar_exists,
    answers_exists (db_file o) = Py.Return db_exists /\
    answers_exists (db_tar o) = Py.Return tar_exists /\
    jdict_get info "db_exists" = Some (JBool db_exists) /\
    jdict_get info "tar_exists" = Some (JBool tar_exists) /\
    jdict_get info "db_size" = Some (size_json (db_file o)) /\
    jdict_get info "db_mtime" = Some (mtime_json (db_file o)) /\
    jdict_get info "tar_size" = Some (size_json (db_tar o)) /\
    jdict_get info "metadata" = Some (metadata_json o) /\
    (size_json (db_file o) = JNone <-> db_exists = false) /\
    (size_json (db_tar o) = JNone <-> tar_exists = false).
Proof.
  destruct o as [[[[|]|] [[size_db [t|]]|]] [[[|]|] [[size_tar t_tar]|]] [[|]|] [j|]];
    run_db_info; intros H; try discriminate H; injection H as <-;
    eexists; eexists;
    (refine (conj eq_refl (conj eq_refl (conj eq_refl (conj eq_refl (conj eq_refl
              (conj eq_refl (conj eq_refl (conj eq_refl (conj _ _)))))))));
     cbn; split; intros H; (reflexivity || discriminate H)).
Qed.

(** [get_db_info] answers for files that can be described, whatever
    reading [metadata.json] gives. *)
Lemma get_db_info_answers (o : output_dir) (w : world) :
  describable true (db_file o) ->
  describable false (db_tar o) ->
  (exists present, metadata_exists o = Py.Return present) ->
  exists info, fst (get_db_info o w) = Py.Return info.
Proof.
  destruct o as [[edb sdb] [etar star] emeta lmeta].
  unfold describable. cbn [answers_exists answers_stat db_file db_tar metadata_exists].
  intros [-> | (-> & [size_db t_db] & -> & _ & Ht)]
         [-> | (-> & [size_tar t_tar] & -> & _ & _)]
         [[|] ->];
    try (destruct (Ht eq_refl) as [t Et]; cbn [st_mtime_iso] in Et; subst t_db);
    destruct lmeta as [j|e]; run_db_info; eexists; reflexivity.
Qed.

Lemma format_size_size_json (f : file) :
  describable false f ->
  exists s, format_size (size_json f) = Py.Return s.
Proof.
  unfold describable, size_json.
  intros [-> | (-> & stat & -> & Hsize & _)].
  - exists "N/A". reflexivity.
  - apply format_size_int_total.
    assert (2 ^ 63 < 2 ^ 1023) by (apply Z.pow_lt_mono_r; lia). lia.
Qed.

Lemma describable_weaken (f : file) :
  describable true f -> describable false f.
Proof.
  unfold describable.
  intros [H | (H & stat & Hs & Hsize & _)]; [left; exact H|].
  right. split; [exact H|]. exists stat. repeat split; try easy.
Qed.

Lemma api_status_eq (o : output_dir) (w : world) :
  api_status o w =
  match fst (get_db_info o w) with
  | Py.Return info =>
      match format_size (size_json (db_file o)) with
      | Py.Return s1 =>
          match format_size (size_json (db_tar o)) with
          | Py.Return s2 => (Py.Return (status_response w info s1 s2), w)
          | Py.Raise e => (Py.Raise e, w)
          end
      | Py.Raise e => (Py.Raise e, w)
      end
  | Py.Raise e => (Py.Raise e, w)
  end.
Proof.
  unfold api_status. unfold bind at 1. rewrite get_build_status_probe.
  unfold bind at 1.
  assert (Hframe := get_db_info_frame o w).
  assert (Hfields := get_db_info_fields o w).
  destruct (get_db_info o w) as [[info|e] w']; cbn [fst snd] in *; subst w';
    [|reflexivity].
  destruct (Hfields info eq_refl)
    as (b1 & b2 & _ & _ & _ & _ & Hdb & _ & Htar & _).
  unfold bind, jsubscript. rewrite Hdb. unfold ret at 1. unfold lift at 1.
  destruct (format_size (size_json (db_file o))) as [s1|e1]; [|reflexivity].
  rewrite jdict_get_set_other by discriminate. rewrite Htar.
  unfold ret at 1. unfold lift at 1.
  destruct (format_size (size_json (db_tar o))) as [s2|e2]; reflexivity.
Qed.

(** The ways [api_status] can end: with that response or with an
    exception; the world stays as it is in both. *)
Lemma api_status_cases (o : output_dir) (w : world) :
  snd (api_status o w) = w /\
  match fst (api_status o w) with
  | Py.Return r =>
      exists info s1 s2,
        fst (get_db_info o w) = Py.Return info /\
        format_size (size_json (db_file o)) = Py.Return s1 /\
        format_size (size_json (db_tar o)) = Py.Return s2 /\
        r = status_response w info s1 s2
  | Py.Raise _ =>
      (exists e, fst (get_db_info o w) = Py.Raise e) \/
      (exists e, format_size (size_json (db_file o)) = Py.Raise e) \/
      (exists e, format_size (size_json (db_tar o)) = Py.Raise e)
  end.
Proof.
  rewrite api_status_eq.
  destruct (fst (get_db_info o w)) as [info|e];
    [|cbn [fst snd]; split; eauto].
  destruct (format_size (size_json (db_file o))) as [s1|e1];
    [|cbn [fst snd]; split; eauto].
  destruct (format_size (size_json (db_tar o))) as [s2|e2];
    [|cbn [fst snd]; split; eauto 6].
  cbn [fst snd]. split; [reflexivity|]. exists info, s1, s2. repeat split.
Qed.

(** [api_status] only reads: whether it answers or raises, the world
    after the call is the world before it, and a response it gives has
    status 200 and the probe's answer as its [build] part.  It does
    answer whenever the probe answers and the two artifacts can be
    described, also when [metadata.json] cannot be read or parsed. *)
Theorem api_status_read_only (o : output_dir) (w : world) :
  snd (api_status o w) = w /\
  (forall r,
     fst (api_status o w) = Py.Return r ->
     json_status_code r = 200 /\
     exists d,
       fst (get_build_status w) = Py.Return d /\
       build_field (Py.Return r) = Some (json_of_dict d)) /\
  (forall d,
     fst (get_build_status w) = Py.Return d ->
     describable true (db_file o) ->
     describable false (db_tar o) ->
     (exists present, metadata_exists o = Py.Return present) ->
     exists r, fst (api_status o w) = Py.Return r).
Proof.
  destruct (api_status_cases o w) as [Hframe Hcases].
  refine (conj Hframe (conj _ _)).
  - intros r Hr. rewrite Hr in Hcases.
    destruct Hcases as (info & s1 & s2 & _ & _ & _ & ->).
    split; [reflexivity|]. exists (probe w).
    rewrite get_build_status_probe. split; reflexivity.
  - intros d _ Hdb Htar Hmeta.
    destruct (get_db_info_answers o w Hdb Htar Hmeta) as [info Hinfo].
    destruct (format_size_size_json (db_file o) (describable_weaken _ Hdb)) as [s1 H1].
    destruct (format_size_size_json (db_tar o) Htar) as [s2 H2].
    destruct (fst (api_status o w)) as [r|e]; [eauto|].
    destruct Hcases as [[e' H] | [[e' H] | [e' H]]]; congruence.
Qed.

Lemma api_status_read_only_witness :
  exists r, fst (api_status sample_output w_corrupt) = Py.Return r.
Proof.
  apply (proj2 (proj2 (api_status_read_only sample_output w_corrupt))
           (error_status "invalid literal for int() with base 10: 'not a pid'")).
  - reflexivity.
  - right. split; [reflexivity|]. eexists. split; [reflexivity|].
    split; [split; [discriminate|reflexivity]|]. intros _. eexists. reflexivity.
  - right. split; [reflexivity|]. eexists. split; [reflexivity|].
    split; [split; [discriminate|reflexivity]|]. intros H. discriminate H.
  - eexists. reflexivity.
Defined.

(** The [database] part of a status response, whenever there is one:
    the existence flags are what [exists()] answered; the sizes are
    those [stat()] gave, [None] for a missing file; a formatted size is
    "N/A" exactly when its file is missing; and the metadata is what
    [json.load] gave, or [None] when the file is missing, unreadable or
    not valid JSON. *)
Theorem api_status_database (o : output_dir) (w : world) (r : json_response) :
  fst (api_status o w) = Py.Return r ->
  exists db_exists tar_exists,
    answers_exists (db_file o) = Py.Return db_exists /\
    answers_exists (db_tar o) = Py.Return tar_exists /\
    database_field (Py.Return r) "db_exists" = Some (JBool db_exists) /\
    database_field (Py.Return r) "tar_exists" = Some (JBool tar_exists) /\
    database_field (Py.Return r) "db_size" = Some (size_json (db_file o)) /\
    database_field (Py.Return r) "db_mtime" = Some (mtime_json (db_file o)) /\
    database_field (Py.Return r) "tar_size" = Some (size_json (db_tar o)) /\
    (database_field (Py.Return r) "db_size_formatted" = Some (JStr "N/A")
     <-> db_exists = false) /\
    (database_field (Py.Return r) "tar_size_formatted" = Some (JStr "N/A")
     <-> tar_exists = false) /\
    database_field (Py.Return r) "metadata" = Some (metadata_json o).
Proof.
  intros Hr. destruct (api_status_cases o w) as [_ Hcases]. rewrite Hr in Hcases.
  destruct Hcases as (info & s1 & s2 & Hinfo & H1 & H2 & ->).
  destruct (get_db_info_fields o w info Hinfo)
    as (b1 & b2 & E1 & E2 & F1 & F2 & F3 & F4 & F5 & F6 & N1 & N2).
  exists b1, b2.
  unfold status_response.
  cbn [fst database_field json_body jdict_get String.eqb Ascii.eqb Bool.eqb].
  repeat (rewrite jdict_get_set_same
          || rewrite jdict_get_set_other by discriminate).
  refine (conj E1 (conj E2 (conj F1 (conj F2 (conj F3 (conj F4 (conj F5
            (conj _ (conj _ F6))))))))).
  - rewrite <- N1. split.
    + intros [= ->]. destruct (size_json (db_file o)); try discriminate H1;
        [reflexivity|].
      apply format_loop_returns_space in H1. discriminate H1.
    + intros E. rewrite E in H1. injection H1 as <-. reflexivity.
  - rewrite <- N2. split.
    + intros [= ->]. destruct (size_json (db_tar o)); try discriminate H2;
        [reflexivity|].
      apply format_loop_returns_space in H2. discriminate H2.
    + intros E. rewrite E in H2. injection H2 as <-. reflexivity.
Qed.

Lemma api_status_database_witness :
  exists db_exists tar_exists,
    answers_exists (db_file sample_output) = Py.Return db_exists /\
    answers_exists (db_tar sample_output) = Py.Return tar_exists /\
    database_field (fst (api_status sample_output w_idle)) "db_exists"
      = Some (JBool db_exists) /\
    database_field (fst (api_status sample_output w_idle)) "tar_exists"
      = Some (JBool tar_exists) /\
    database_field (fst (api_status sample_output w_idle)) "db_size"
      = Some (JInt 1536) /\
    database_field (fst (api_status sample_output w_idle)) "db_mtime"
      = Some (JStr "2024-01-01T00:00:00") /\
    database_field (fst (api_status sample_output w_idle)) "tar_size"
      = Some (JInt 640) /\
    (database_field (fst (api_status sample_output w_idle)) "db_size_formatted"
       = Some (JStr "N/A") <-> db_exists = false) /\
    (database_field (fst (api_status sample_output w_idle)) "tar_size_formatted"
       = Some (JStr "N/A") <-> tar_exists = false) /\
    database_field (fst (api_status sample_output w_idle)) "metadata" = Some JNone.
Proof.
  apply (api_status_database sample_output w_idle
           (match fst (api_status sample_output w_idle) with
            | Py.Return r => r
            | Py.Raise _ => mkJsonResponse JNone 0
            end)).
  reflexivity.
Defined.

(** ** A build, a restart, and the logs *)

Lemma consumed_fs_fault (pre : list string) (w : world) :
  fs_fault (fold_left (fun w l => consume l w) pre w) = fs_fault w.
Proof.
  revert w. induction pre as [|l pre IH]; intros w; cbn [fold_left].
  - reflexivity.
  - rewrite IH. reflexivity.
Qed.

Lemma run_build_async_printing_fs_fault (w : world) (lines : list string) (rc : Z) :
  Forall (fun l => l <> EmptyString) lines ->
  fs_fault (snd (run_build_async (printing lines rc) w)) = fs_fault w.
Proof.
  intros Hlines.
  unfold printing, run_build_async, bind, try_except, log_buffer_clear,
    datetime_now, Popen, log_buffer_append.
  cbn [stdout returncode].
  rewrite <- (app_nil_r (map _ lines)).
  rewrite stream_output_lines by assumption.
  cbn [stream_output ret].
  destruct (rc =? 0); unfold log_buffer_append;
    cbn [fst snd fs_fault set_log_buffer];
    rewrite consumed_fs_fault; reflexivity.
Qed.

(** After a build whose output all reached the log file, started
    without a log file, a server that has lost its deque (a restart)
    still serves the build's output: for a request of at least one line
    [api_logs] returns the last [min(lines, MAX_LOG_LINES)] lines the
    child printed, read back from the log file. *)
Theorem api_logs_after_restart
    (w : world) (lines : list string) (rc : Z) (arg : option string) :
  forallb is_line lines = true ->
  log_file w = None ->
  fs_fault w (OpenRead LOG_FILE) = None ->
  1 <= args_get_int arg 100 ->
  response_logs
    (fst (api_logs arg
            (set_log_buffer [] (snd (run_build_async (printing lines rc) w)))))
  = last_n (Z.to_nat (Z.min (args_get_int arg 100) MAX_LOG_LINES)) lines.
Proof.
  intros Hlines Hnone Hread Harg.
  assert (Hne := forallb_is_line_nonempty lines Hlines).
  rewrite api_logs_eq. cbv zeta. rewrite response_logs_eq.
  cbn [log_buffer set_log_buffer buffer_tail is_empty log_file fs_fault].
  rewrite run_build_async_printing_log_file, run_build_async_printing_fs_fault
    by assumption.
  destruct lines as [|l ls].
  - rewrite Hnone. reflexivity.
  - rewrite Hread. unfold log_text. rewrite Hnone, fold_left_append.
    cbn [String.append]. rewrite readlines_lines by assumption.
    apply slice_from_neg_positive. unfold MAX_LOG_LINES. lia.
Qed.

Lemma api_logs_after_restart_witness :
  response_logs
    (fst (api_logs (Some "1")
            (set_log_buffer []
               (snd (run_build_async
                       (printing [("a" ++ nl)%string; ("b" ++ nl)%string] 0) w_idle)))))
  = last_n (Z.to_nat (Z.min (args_get_int (Some "1") 100) MAX_LOG_LINES))
           [("a" ++ nl)%string; ("b" ++ nl)%string].
Proof.
  apply (api_logs_after_restart w_idle [("a" ++ nl)%string; ("b" ++ nl)%string] 0
           (Some "1")).
  - reflexivity.
  - reflexivity.
  - reflexivity.
  - discriminate.
Defined.

Lemma api_logs_cap_positive_witness :
  Z.of_nat (List.length (response_logs (fst (api_logs (Some "500") w_restarted))))
  <= Z.min (args_get_int (Some "500") 100) MAX_LOG_LINES.
Proof.
  apply (api_logs_cap_positive (Some "500") w_restarted).
  discriminate.
Defined.
